(** * go-oauth2-mongo: the client store and the token store over MongoDB

    A shallow embedding of [client_store.go] and [token_store.go].

    The two stores talk to one MongoDB database through the Go driver.  The
    embedding keeps that layering:

    - [time]    : the part of Go's [time] package the token store uses;
    - [bson]    : how the database keeps a [time.Time];
    - [driver]  : the part of the MongoDB Go driver the stores call
                  (collections, sessions, transactions), as a state
                  transformer over a [World];
    - [ClientStore], [TokenStore] : the repository's code, function by
                  function, written in the state monad [M].

    Go's [error] is [option Err] ([None] is [nil]).  A closure that assigns
    a variable of its enclosing function returns the new value of that
    variable next to its [error].

    Outside the model: the constructors and [Close] (connection set-up and
    the index creation at start) and faults of the network. *)

From Stdlib Require Import ZArith List Lia Permutation.
From stdpp Require Import gmap strings list fin_maps pretty.

Set Default Proof Using "Type".

(* ===================================================================== *)
(** ** Go's [time] package *)
(* ===================================================================== *)

Module time.

(** [time.Duration] is an [int64] count of nanoseconds. *)
Definition Duration := Z.

Definition Nanosecond : Duration := 1%Z.
Definition Second : Duration := 1000000000%Z.
Definition Minute : Duration := (60 * Second)%Z.
Definition Hour : Duration := (60 * Minute)%Z.

(** A [time.Time] is an instant (nanoseconds since the Unix epoch) shown
    in a location; the location is kept as its offset east of UTC in
    seconds.  The monotonic clock reading plays no part in the methods
    used here. *)
Record Time := mkTime { unixNano : Z; zoneOffset : Z }.

(** [time.Time{}]: January 1, year 1, 00:00:00 UTC. *)
Definition zero : Time := mkTime (-62135596800 * Second)%Z 0%Z.

(** [t.Add(d)] *)
Definition Add (t : Time) (d : Duration) : Time :=
  mkTime (unixNano t + d)%Z (zoneOffset t).

(** [t.Unix()]: whole seconds since the epoch (rounded down). *)
Definition Unix (t : Time) : Z := (unixNano t / Second)%Z.

(** [t.Nanosecond()]: the nanosecond offset within the second, in the
    range [0, 999999999]. *)
Definition Time_Nanosecond (t : Time) : Z := (unixNano t mod Second)%Z.

(** [t.Second()]: "the second offset within the minute specified by t,
    in the range [0, 59]". *)
Definition Time_Second (t : Time) : Z := ((Unix t + zoneOffset t) mod 60)%Z.

(** [t.After(u)] and the order of instants. *)
Definition After (t u : Time) : bool := (unixNano u <? unixNano t)%Z.
Definition le (t u : Time) : Prop := (unixNano t <= unixNano u)%Z.

End time.

(* ===================================================================== *)
(** ** Errors *)
(* ===================================================================== *)

Inductive Err : Type :=
  | ErrNoDocuments                          (* mongo.ErrNoDocuments *)
  | ErrDuplicateKey (cname id : string)     (* write exception E11000 *)
  | ErrNoTransactStarted
  | ErrTransactInProgress
  | ErrAbortAfterCommit
  | ErrAbortTwice
  | ErrCommitAfterAbort
  | ErrSessionEnded
  | ErrJSON (msg : string)                  (* encoding/json *)
  | ErrOther (msg : string).                (* any other fault *)

Definition error := option Err.

(* ===================================================================== *)
(** ** Documents *)
(* ===================================================================== *)

(** [type basicData struct] of token_store.go *)
Module basicData.
Record t := mk { ID : string; Data : list Byte.byte; ExpiredAt : time.Time }.
End basicData.

(** [type tokenData struct] of token_store.go *)
Module tokenData.
Record t := mk { ID : string; BasicID : string; ExpiredAt : time.Time }.
End tokenData.

(** [type client struct] of client_store.go *)
Module client.
Record t := mk { ID : string; Secret : string; Domain : string; UserID : string }.
End client.

(** A stored document is one of the three structs the stores insert. *)
Inductive Doc : Type :=
  | BasicDoc (b : basicData.t)
  | TokenDoc (d : tokenData.t)
  | ClientDoc (c : client.t).

(** The [_id] field (every struct tags one field [bson:"_id"]). *)
Definition docID (d : Doc) : string :=
  match d with
  | BasicDoc b => basicData.ID b
  | TokenDoc t => tokenData.ID t
  | ClientDoc c => client.ID c
  end.

(** [SingleResult.Decode(&v)]: fields are matched by their bson names; a
    field the document lacks keeps the zero value of [v], a field the
    struct lacks is skipped. *)
Definition decode_basicData (d : Doc) : basicData.t :=
  match d with
  | BasicDoc b => b
  | TokenDoc t => basicData.mk (tokenData.ID t) [] (tokenData.ExpiredAt t)
  | ClientDoc c => basicData.mk (client.ID c) [] time.zero
  end.

Definition decode_tokenData (d : Doc) : tokenData.t :=
  match d with
  | TokenDoc t => t
  | BasicDoc b => tokenData.mk (basicData.ID b) "" (basicData.ExpiredAt b)
  | ClientDoc c => tokenData.mk (client.ID c) "" time.zero
  end.

Definition decode_client (d : Doc) : client.t :=
  match d with
  | ClientDoc c => c
  | BasicDoc b => client.mk (basicData.ID b) "" "" ""
  | TokenDoc t => client.mk (tokenData.ID t) "" "" ""
  end.

(* ===================================================================== *)
(** ** BSON *)
(* ===================================================================== *)

(** The database keeps a [time.Time] as a BSON datetime: a count of
    milliseconds since the Unix epoch, with no zone. *)
Module bson.

(** [primitive.NewDateTimeFromTime(t)], what the encoder writes for a
    [time.Time]. *)
Definition NewDateTimeFromTime (t : time.Time) : Z :=
  (time.Unix t * 1000 + time.Time_Nanosecond t / 1000000)%Z.

(** [DateTime.Time()], what the decoder reads back: the instant of that
    millisecond, shown in UTC. *)
Definition DateTime_Time (dt : Z) : time.Time :=
  time.mkTime (dt * 1000000)%Z 0%Z.

(** A time after it went through the database. *)
Definition storedTime (t : time.Time) : time.Time :=
  DateTime_Time (NewDateTimeFromTime t).

(** A document as the database holds it: strings and bytes as they were
    handed over, times as BSON datetimes. *)
Definition stored (d : Doc) : Doc :=
  match d with
  | BasicDoc b =>
      BasicDoc (basicData.mk (basicData.ID b) (basicData.Data b)
                             (storedTime (basicData.ExpiredAt b)))
  | TokenDoc t =>
      TokenDoc (tokenData.mk (tokenData.ID t) (tokenData.BasicID t)
                             (storedTime (tokenData.ExpiredAt t)))
  | ClientDoc c => ClientDoc c
  end.

End bson.

(* ===================================================================== *)
(** ** The MongoDB driver *)
(* ===================================================================== *)

(** The database: documents keyed by collection name and [_id]. *)
Abbreviation Database := (gmap (string * string) Doc).

(** A [context.Context] either descends from [context.Background()] or is
    the [mongo.SessionContext] handed to the callback of [UseSession].  The
    driver runs an operation under a session (and its transaction) only
    when the operation is given that session's context. *)
Inductive Context : Type := CtxBackground | CtxSession.

Inductive TxnState : Type :=
  | TxnNone | TxnStarting | TxnInProgress | TxnCommitted | TxnAborted.

(** A session: the state of its transaction, the database as it was when
    the transaction started, and the writes the transaction holds back
    until it commits (a document put under a key, or a key deleted). *)
Record Session := mkSession {
  txnState : TxnState;
  txnSnapshot : Database;
  txnPending : list ((string * string) * option Doc)
}.

(** What reached the driver, in order, with the documents as they were
    handed over.  [inTxn] tells whether the operation ran under the
    session's transaction. *)
Inductive Event : Type :=
  | EvStartTransaction
  | EvCommitTransaction
  | EvAbortTransaction
  | EvInsertOne (inTxn : bool) (cname : string) (d : Doc) (r : error)
  | EvDeleteOne (inTxn : bool) (cname id : string)
  | EvFindOne (inTxn : bool) (cname id : string).

(** The state the program runs in: the database, the live session (inside
    [UseSession]), the driver calls made so far, and the two sources of
    values the Go runtime picks: the ObjectID generator and the iteration
    order of [range] over a map. *)
Record World := mkWorld {
  store : Database;
  session : option Session;
  trace : list Event;
  oidCounter : nat;
  rangeSeed : nat
}.

Definition emptyWorld : World := mkWorld ∅ None [] 0 0.

(** State passing: a Go function with results [A] is an [M A]. *)
Definition M (A : Type) : Type := World → A * World.

Definition ret {A} (a : A) : M A := fun w => (a, w).
Definition bind {A B} (m : M A) (k : A → M B) : M B :=
  fun w => let '(a, w') := m w in k a w'.

Notation "x <- m ;; k" := (bind m (fun x => k))
  (at level 100, m at next level, k at level 200, right associativity).

Module driver.

Definition withStore (db : Database) (w : World) : World :=
  mkWorld db (session w) (trace w) (oidCounter w) (rangeSeed w).
Definition withSession (s : option Session) (w : World) : World :=
  mkWorld (store w) s (trace w) (oidCounter w) (rangeSeed w).
Definition logEv (e : Event) (w : World) : World :=
  mkWorld (store w) (session w) (trace w ++ [e]) (oidCounter w) (rangeSeed w).

Definition applyWrite (db : Database) (wr : (string * string) * option Doc) : Database :=
  match snd wr with
  | Some d => <[fst wr := d]> db
  | None => delete (fst wr) db
  end.

Definition applyWrites (wrs : list ((string * string) * option Doc)) (db : Database)
    : Database :=
  foldl applyWrite db wrs.

(** Does an operation given [ctx] run under an open transaction? *)
Definition inTxn (ctx : Context) (w : World) : bool :=
  match ctx, session w with
  | CtxSession, Some s =>
      match txnState s with
      | TxnStarting | TxnInProgress => true
      | _ => false
      end
  | _, _ => false
  end.

(** The database an operation given [ctx] reads: under a transaction, its
    snapshot with its own writes; otherwise the database itself. *)
Definition view (ctx : Context) (w : World) : Database :=
  match session w with
  | Some s => if inTxn ctx w then applyWrites (txnPending s) (txnSnapshot s) else store w
  | None => store w
  end.

(** A write of an operation given [ctx]: held back under a transaction,
    applied to the database otherwise. *)
Definition write (ctx : Context) (wr : (string * string) * option Doc) (w : World)
    : World :=
  match session w with
  | Some s =>
      if inTxn ctx w
      then withSession
             (Some (mkSession TxnInProgress (txnSnapshot s) (txnPending s ++ [wr]))) w
      else withStore (applyWrite (store w) wr) w
  | None => withStore (applyWrite (store w) wr) w
  end.

(** A read of an operation given [ctx]: under a transaction it makes the
    transaction one that has run an operation. *)
Definition touch (ctx : Context) (w : World) : World :=
  match session w with
  | Some s =>
      if inTxn ctx w
      then withSession (Some (mkSession TxnInProgress (txnSnapshot s) (txnPending s))) w
      else w
  | None => w
  end.

(** [Collection.InsertOne(ctx, doc)]: the document is encoded to BSON and
    kept under its [_id], unless the [_id] is taken. *)
Definition InsertOne (ctx : Context) (cname : string) (d : Doc) : M error :=
  fun w =>
    match view ctx w !! (cname, docID d) with
    | Some _ =>
        let r := Some (ErrDuplicateKey cname (docID d)) in
        (r, logEv (EvInsertOne (inTxn ctx w) cname d r) (touch ctx w))
    | None =>
        (None, logEv (EvInsertOne (inTxn ctx w) cname d None)
                 (write ctx ((cname, docID d), Some (bson.stored d)) w))
    end.

(** [Collection.DeleteOne(ctx, bson.M{"_id": id})]: deleting nothing is
    not an error. *)
Definition DeleteOne (ctx : Context) (cname id : string) : M error :=
  fun w =>
    (None, logEv (EvDeleteOne (inTxn ctx w) cname id)
             (write ctx ((cname, id), None) w)).

(** [Collection.FindOne(ctx, bson.M{"_id": id})]; [Decode] on the result
    fails with [ErrNoDocuments] when there is none. *)
Definition FindOne (ctx : Context) (cname id : string) : M (option Doc) :=
  fun w =>
    (view ctx w !! (cname, id),
     logEv (EvFindOne (inTxn ctx w) cname id) (touch ctx w)).

(** [session.StartTransaction()] *)
Definition StartTransaction : M error :=
  fun w =>
    match session w with
    | None => (Some ErrSessionEnded, w)
    | Some s =>
        match txnState s with
        | TxnStarting | TxnInProgress => (Some ErrTransactInProgress, w)
        | _ => (None, logEv EvStartTransaction
                        (withSession (Some (mkSession TxnStarting (store w) [])) w))
        end
    end.

(** [session.AbortTransaction(ctx)]: the writes held back are dropped.  No
    command is sent for a transaction that has run no operation; either
    way the result is [nil]. *)
Definition AbortTransaction (ctx : Context) : M error :=
  fun w =>
    match session w with
    | None => (Some ErrSessionEnded, w)
    | Some s =>
        match txnState s with
        | TxnNone => (Some ErrNoTransactStarted, w)
        | TxnCommitted => (Some ErrAbortAfterCommit, w)
        | TxnAborted => (Some ErrAbortTwice, w)
        | TxnStarting | TxnInProgress =>
            (None, logEv EvAbortTransaction
                     (withSession (Some (mkSession TxnAborted ∅ [])) w))
        end
    end.

(** [session.CommitTransaction(ctx)]: the writes held back reach the
    database; a transaction that has run no operation has none. *)
Definition CommitTransaction (ctx : Context) : M error :=
  fun w =>
    match session w with
    | None => (Some ErrSessionEnded, w)
    | Some s =>
        match txnState s with
        | TxnNone => (Some ErrNoTransactStarted, w)
        | TxnAborted => (Some ErrCommitAfterAbort, w)
        | TxnCommitted => (None, w)
        | TxnStarting =>
            (None, logEv EvCommitTransaction
                     (withSession (Some (mkSession TxnCommitted ∅ [])) w))
        | TxnInProgress =>
            (None, logEv EvCommitTransaction
                     (withSession (Some (mkSession TxnCommitted ∅ []))
                        (withStore (applyWrites (txnPending s) (store w)) w)))
        end
    end.

(** [Client.UseSession(ctx, fn)]: a fresh session, [fn] applied to its
    session context, the session ended afterwards (which drops a
    transaction still open).  [A] is what [fn] leaves in the variables it
    captures. *)
Definition UseSession {A} (fn : Context → M (A * error)) : M (A * error) :=
  fun w =>
    let '(r, w') := fn CtxSession (withSession (Some (mkSession TxnNone ∅ [])) w) in
    (r, withSession None w').

End driver.

(* ===================================================================== *)
(** ** The interfaces of the issuing framework *)
(* ===================================================================== *)

(** [oauth2.ClientInfo]: what its getters return ([models.Client] is the
    struct with these four fields). *)
Module ClientInfo.
Record t := mk {
  GetID : string;
  GetSecret : string;
  GetDomain : string;
  GetUserID : string
}.
End ClientInfo.

(** [oauth2.TokenInfo]: what its getters return ([models.Token] is the
    struct with these fields). *)
Module TokenInfo.
Record t := mk {
  GetClientID : string;
  GetUserID : string;
  GetRedirectURI : string;
  GetScope : string;
  GetCode : string;
  GetCodeCreateAt : time.Time;
  GetCodeExpiresIn : time.Duration;
  GetAccess : string;
  GetAccessCreateAt : time.Time;
  GetAccessExpiresIn : time.Duration;
  GetRefresh : string;
  GetRefreshCreateAt : time.Time;
  GetRefreshExpiresIn : time.Duration
}.

(** [models.Token{}] *)
Definition zero : t :=
  mk "" "" "" "" "" time.zero 0%Z "" time.zero 0%Z "" time.zero 0%Z.
End TokenInfo.

(** What the Go runtime and the libraries supply: the JSON codec of the
    token record, the ObjectID generator, and the order in which [range]
    visits the entries of a map (Go leaves it unspecified; it may differ
    from one loop to the next). *)
Record Runtime := mkRuntime {
  json_Marshal : TokenInfo.t → list Byte.byte * error;
  json_Unmarshal : list Byte.byte → TokenInfo.t → TokenInfo.t * error;
  ObjectIDHex : nat → string;
  rangeOrder : nat → list (string * Doc) → list (string * Doc)
}.

(** [range] visits every entry exactly once. *)
Definition rangeOrder_ok (rt : Runtime) : Prop :=
  ∀ n l, Permutation (rangeOrder rt n l) l.

(** [primitive.NewObjectID().Hex()] *)
Definition NewObjectIDHex (rt : Runtime) : M string :=
  fun w =>
    (ObjectIDHex rt (oidCounter w),
     mkWorld (store w) (session w) (trace w) (S (oidCounter w)) (rangeSeed w)).

(** The entries of a Go map in the order a [range] loop visits them. *)
Definition rangeMap (rt : Runtime) (m : gmap string Doc) : M (list (string * Doc)) :=
  fun w =>
    (rangeOrder rt (rangeSeed w) (map_to_list m),
     mkWorld (store w) (session w) (trace w) (oidCounter w) (S (rangeSeed w))).

(* ===================================================================== *)
(** ** client_store.go *)
(* ===================================================================== *)

Record ClientConfig := mkClientConfig { ClientsCName : string }.

Definition NewDefaultClientConfig : ClientConfig :=
  mkClientConfig "oauth2_clients".

Module ClientStore.

Record t := mk { ccfg : ClientConfig; dbName : string }.

(** [cs.col(name)]: a collection of the store's database, by name. *)
Definition col (cs : t) (name : string) : string := name.

(** [colHandler]: [fn] is given the context made from
    [context.Background()], not the session's. *)
Definition colHandler {A} (cs : t) (name : string)
    (fn : Context → string → M (A * error)) : M (A * error) :=
  driver.UseSession (fun session =>
    let ctx := CtxBackground in
    started <- driver.StartTransaction ;;
    r <- fn ctx (col cs name) ;;
    match snd r with
    | Some _ => e <- driver.AbortTransaction ctx ;; ret (fst r, e)
    | None => e <- driver.CommitTransaction ctx ;; ret (fst r, e)
    end).

Definition Set_ (cs : t) (info : ClientInfo.t) : M error :=
  r <- colHandler cs (ClientsCName (ccfg cs)) (fun ctx c =>
         let entity := client.mk (ClientInfo.GetID info) (ClientInfo.GetSecret info)
                                 (ClientInfo.GetDomain info) (ClientInfo.GetUserID info) in
         err <- driver.InsertOne ctx c (ClientDoc entity) ;;
         ret (tt, err)) ;;
  ret (snd r).

Definition GetByID (cs : t) (id : string) : M (option ClientInfo.t * error) :=
  colHandler cs (ClientsCName (ccfg cs)) (fun ctx c =>
    found <- driver.FindOne ctx c id ;;
    match found with
    | None => ret (None, Some ErrNoDocuments)
    | Some d =>
        let entity := decode_client d in
        ret (Some (ClientInfo.mk (client.ID entity) (client.Secret entity)
                                 (client.Domain entity) (client.UserID entity)),
             None)
    end).

Definition RemoveByID (cs : t) (id : string) : M error :=
  r <- colHandler cs (ClientsCName (ccfg cs)) (fun ctx c =>
         err <- driver.DeleteOne ctx c id ;;
         ret (tt, err)) ;;
  ret (snd r).

End ClientStore.

(* ===================================================================== *)
(** ** token_store.go *)
(* ===================================================================== *)

Record TokenConfig := mkTokenConfig {
  TxnCName : string;
  BasicCName : string;
  AccessCName : string;
  RefreshCName : string
}.

Definition NewDefaultTokenConfig : TokenConfig :=
  mkTokenConfig "oauth2_txn" "oauth2_basic" "oauth2_access" "oauth2_refresh".

(** The three collections the store writes have three different names. *)
Definition distinctCNames (c : TokenConfig) : Prop :=
  BasicCName c ≠ AccessCName c ∧ BasicCName c ≠ RefreshCName c ∧
  AccessCName c ≠ RefreshCName c.

Module TokenStore.

Record t := mk { tcfg : TokenConfig; dbName : string }.

(** [ts.col(name)] and [session.Client().Database(ts.dbName).Collection(name)] *)
Definition col (ts : t) (name : string) : string := name.

(** [dbHandler]: as [colHandler], [fn] is given the context made from
    [context.Background()]. *)
Definition dbHandler {A} (ts : t) (fn : Context → M (A * error)) : M (A * error) :=
  driver.UseSession (fun session =>
    let ctx := CtxBackground in
    started <- driver.StartTransaction ;;
    r <- fn ctx ;;
    match snd r with
    | Some _ => e <- driver.AbortTransaction ctx ;; ret (fst r, e)
    | None => e <- driver.CommitTransaction ctx ;; ret (fst r, e)
    end).

Definition colHandler {A} (ts : t) (name : string)
    (fn : Context → string → M (A * error)) : M (A * error) :=
  driver.UseSession (fun session =>
    let ctx := CtxBackground in
    started <- driver.StartTransaction ;;
    r <- fn ctx (col ts name) ;;
    match snd r with
    | Some _ => e <- driver.AbortTransaction ctx ;; ret (fst r, e)
    | None => e <- driver.CommitTransaction ctx ;; ret (fst r, e)
    end).

(** Lines 173-181 of [Create]: the two expiry times of a grant, access
    first. *)
Definition expiries (info : TokenInfo.t) : time.Time * time.Time :=
  let aexp := time.Add (TokenInfo.GetAccessCreateAt info) (TokenInfo.GetAccessExpiresIn info) in
  let rexp := aexp in
  if decide (TokenInfo.GetRefresh info ≠ "") then
    let rexp := time.Add (TokenInfo.GetRefreshCreateAt info) (TokenInfo.GetRefreshExpiresIn info) in
    if (time.Time_Second aexp >? time.Time_Second rexp)%Z
    then (rexp, rexp)
    else (aexp, rexp)
  else (aexp, rexp).

(** Lines 184-206 of [Create]: the map from collection name to the
    document to insert there. *)
Definition grantPayloads (ts : t) (info : TokenInfo.t) (jv : list Byte.byte)
    (id : string) : gmap string Doc :=
  let aexp := fst (expiries info) in
  let rexp := snd (expiries info) in
  let payloads : gmap string Doc := ∅ in
  let payloads :=
    <[BasicCName (tcfg ts) := BasicDoc (basicData.mk id jv rexp)]> payloads in
  let payloads :=
    <[AccessCName (tcfg ts) :=
        TokenDoc (tokenData.mk (TokenInfo.GetAccess info) id aexp)]> payloads in
  if decide (TokenInfo.GetRefresh info ≠ "") then
    <[RefreshCName (tcfg ts) :=
        TokenDoc (tokenData.mk (TokenInfo.GetRefresh info) id rexp)]> payloads
  else payloads.

(** The loop of lines 209-215 over the entries still to visit. *)
Fixpoint insertEach (ts : t) (ctx : Context) (entries : list (string * Doc)) : M error :=
  match entries with
  | [] => ret None
  | (key, value) :: rest =>
      err <- driver.InsertOne ctx (col ts key) value ;;
      match err with
      | Some e => ret (Some e)
      | None => insertEach ts ctx rest
      end
  end.

Definition Create (rt : Runtime) (ts : t) (info : TokenInfo.t) : M error :=
  let '(jv, err) := json_Marshal rt info in
  match err with
  | Some e => ret (Some e)
  | None =>
      let code := TokenInfo.GetCode info in
      if decide (code ≠ "") then
        r <- colHandler ts (BasicCName (tcfg ts)) (fun ctx c =>
               err <- driver.InsertOne ctx c
                        (BasicDoc (basicData.mk code jv
                           (time.Add (TokenInfo.GetCodeCreateAt info)
                                     (TokenInfo.GetCodeExpiresIn info)))) ;;
               ret (tt, err)) ;;
        ret (snd r)
      else
        id <- NewObjectIDHex rt ;;
        let payloads := grantPayloads ts info jv id in
        r <- dbHandler ts (fun ctx =>
               entries <- rangeMap rt payloads ;;
               err <- insertEach ts ctx entries ;;
               ret (tt, err)) ;;
        ret (snd r)
  end.

Definition RemoveByCode (ts : t) (code : string) : M error :=
  r <- colHandler ts (BasicCName (tcfg ts)) (fun ctx c =>
         err <- driver.DeleteOne ctx c code ;;
         ret (tt, err)) ;;
  ret (snd r).

Definition RemoveByAccess (ts : t) (access : string) : M error :=
  r <- colHandler ts (AccessCName (tcfg ts)) (fun ctx c =>
         err <- driver.DeleteOne ctx c access ;;
         ret (tt, err)) ;;
  ret (snd r).

Definition RemoveByRefresh (ts : t) (refresh : string) : M error :=
  r <- colHandler ts (RefreshCName (tcfg ts)) (fun ctx c =>
         err <- driver.DeleteOne ctx c refresh ;;
         ret (tt, err)) ;;
  ret (snd r).

(** [getData] returns [&tm], never [nil]: the token it read, or the zero
    token when the lookup or the decoding failed before filling it. *)
Definition getData (rt : Runtime) (ts : t) (basicID : string) : M (TokenInfo.t * error) :=
  let tm := TokenInfo.zero in
  colHandler ts (BasicCName (tcfg ts)) (fun ctx c =>
    found <- driver.FindOne ctx c basicID ;;
    match found with
    | None => ret (tm, Some ErrNoDocuments)
    | Some d =>
        let bd := decode_basicData d in
        ret (json_Unmarshal rt (basicData.Data bd) tm)
    end).

Definition getBasicID (ts : t) (cname token : string) : M (string * error) :=
  let basicID := "" in
  colHandler ts cname (fun ctx c =>
    found <- driver.FindOne ctx c token ;;
    match found with
    | None => ret (basicID, Some ErrNoDocuments)
    | Some d =>
        let td := decode_tokenData d in
        ret (tokenData.BasicID td, None)
    end).

Definition GetByCode (rt : Runtime) (ts : t) (code : string) : M (TokenInfo.t * error) :=
  getData rt ts code.

(** The first result is [None] for Go's [nil]. *)
Definition GetByAccess (rt : Runtime) (ts : t) (access : string)
    : M (option TokenInfo.t * error) :=
  r <- getBasicID ts (AccessCName (tcfg ts)) access ;;
  let '(basicID, err) := r in
  if decide (err ≠ None ∧ basicID = "") then ret (None, err)
  else
    d <- getData rt ts basicID ;;
    ret (Some (fst d), snd d).

Definition GetByRefresh (rt : Runtime) (ts : t) (refresh : string)
    : M (option TokenInfo.t * error) :=
  r <- getBasicID ts (RefreshCName (tcfg ts)) refresh ;;
  let '(basicID, err) := r in
  if decide (err ≠ None ∧ basicID = "") then ret (None, err)
  else
    d <- getData rt ts basicID ;;
    ret (Some (fst d), snd d).

End TokenStore.

(* ===================================================================== *)
(** ** Vocabulary of the statements *)
(* ===================================================================== *)

(** The world in which a wrapper runs its callback: a fresh session whose
    transaction has started. *)
Definition begun (w : World) : World :=
  driver.logEv EvStartTransaction
    (driver.withSession (Some (mkSession TxnStarting (store w) [])) w).

(** The world a wrapper leaves: it has aborted when the callback returned
    a fault and committed otherwise, and the session is over. *)
Definition concluded (r : error) (w : World) : World :=
  driver.withSession None
    (driver.logEv (match r with
                   | Some _ => EvAbortTransaction
                   | None => EvCommitTransaction
                   end) w).

(** A callback that leaves the session alone. *)
Definition keepsSession {A} (m : M A) : Prop :=
  ∀ w, session (snd (m w)) = session w.

(** The document [Set] builds from the client information. *)
Definition entityOf (info : ClientInfo.t) : client.t :=
  client.mk (ClientInfo.GetID info) (ClientInfo.GetSecret info)
            (ClientInfo.GetDomain info) (ClientInfo.GetUserID info).

(** The record [GetByID] builds from the document it read. *)
Definition infoOf (entity : client.t) : ClientInfo.t :=
  ClientInfo.mk (client.ID entity) (client.Secret entity)
                (client.Domain entity) (client.UserID entity).

(** The payload [Create] stores for an authorization code. *)
Definition codeDoc (info : TokenInfo.t) (jv : list Byte.byte) : Doc :=
  BasicDoc (basicData.mk (TokenInfo.GetCode info) jv
              (time.Add (TokenInfo.GetCodeCreateAt info)
                        (TokenInfo.GetCodeExpiresIn info))).

(** The world after [primitive.NewObjectID()]. *)
Definition afterOID (w : World) : World :=
  mkWorld (store w) (session w) (trace w) (S (oidCounter w)) (rangeSeed w).

(** The world after a [range] loop picked its order. *)
Definition afterRange (w : World) : World :=
  mkWorld (store w) (session w) (trace w) (oidCounter w) (S (rangeSeed w)).

(** The entries of a grant in the order the loop of [Create] visits them. *)
Definition grantEntries (rt : Runtime) (ts : TokenStore.t) (info : TokenInfo.t)
    (jv : list Byte.byte) (w : World) : list (string * Doc) :=
  rangeOrder rt (rangeSeed w)
    (map_to_list (TokenStore.grantPayloads ts info jv (ObjectIDHex rt (oidCounter w)))).

(** Referential integrity: every row of the two index collections names
    the [_id] of a payload of the basic collection. *)
Definition refIntegrity (ts : TokenStore.t) (db : Database) : Prop :=
  ∀ cn id d,
    cn = AccessCName (TokenStore.tcfg ts) ∨ cn = RefreshCName (TokenStore.tcfg ts) →
    db !! (cn, id) = Some d →
    is_Some (db !! (BasicCName (TokenStore.tcfg ts),
                    tokenData.BasicID (decode_tokenData d))).

(** The last thing the driver saw was a commit: the wrapper's callback
    returned no fault. *)
Definition committed (w : World) : Prop :=
  last (trace w) = Some EvCommitTransaction.

(** The worlds a run of successful [Create]s leads to, from the empty
    database: each [Create] returned [nil]. *)
Inductive reachable (rt : Runtime) (ts : TokenStore.t) : World → Prop :=
  | reach_empty : reachable rt ts emptyWorld
  | reach_Create w info :
      reachable rt ts w →
      fst (TokenStore.Create rt ts info w) = None →
      reachable rt ts (snd (TokenStore.Create rt ts info w)).

(** *** Concrete data for running the model *)

(** A runtime: the codec keeps the access token only (written as its
    bytes, read back into the access field), ObjectIDs count up, [range]
    visits the entries in the order the map lists them. *)
Definition sampleRuntime : Runtime :=
  mkRuntime
    (fun info => (String.list_byte_of_string (TokenInfo.GetAccess info), None))
    (fun b tm =>
       (TokenInfo.mk (TokenInfo.GetClientID tm) (TokenInfo.GetUserID tm)
          (TokenInfo.GetRedirectURI tm) (TokenInfo.GetScope tm)
          (TokenInfo.GetCode tm) (TokenInfo.GetCodeCreateAt tm)
          (TokenInfo.GetCodeExpiresIn tm)
          (String.string_of_list_byte b) (TokenInfo.GetAccessCreateAt tm)
          (TokenInfo.GetAccessExpiresIn tm)
          (TokenInfo.GetRefresh tm) (TokenInfo.GetRefreshCreateAt tm)
          (TokenInfo.GetRefreshExpiresIn tm),
        None))
    (fun n => "oid" +:+ pretty n)
    (fun _ l => l).

Definition defaultTokenStore : TokenStore.t :=
  TokenStore.mk NewDefaultTokenConfig "oauth2".

Definition defaultClientStore : ClientStore.t :=
  ClientStore.mk NewDefaultClientConfig "oauth2".

(** The Unix epoch, in UTC. *)
Definition epoch : time.Time := time.mkTime 0 0.

(** A grant with access token [a] living [alife] and refresh token [r]
    living [rlife], both created at [t]; no authorization code. *)
Definition grant (a r : string) (t : time.Time) (alife rlife : time.Duration)
    : TokenInfo.t :=
  TokenInfo.mk "client" "user" "" "" "" time.zero 0%Z a t alife r t rlife.

(** A refreshed grant: the refresh token was created at the epoch and
    lives three hours; the access token was issued two hours later and
    lives two hours, one hour longer than the refresh token has left. *)
Definition refreshedGrant : TokenInfo.t :=
  TokenInfo.mk "client" "user" "" "" "" time.zero 0%Z
    "a" (time.Add epoch (2 * time.Hour)%Z) (2 * time.Hour)%Z
    "r" epoch (3 * time.Hour)%Z.

(** A code grant that carries an access and a refresh token as well. *)
Definition codeGrant : TokenInfo.t :=
  TokenInfo.mk "client" "user" "" "" "c0de" epoch (10 * time.Minute)%Z
    "a" epoch time.Hour "r" epoch (2 * time.Hour)%Z.

(** The grant of the concrete scenario: 3600 s and 7200 s from one time. *)
Definition hourGrant : TokenInfo.t :=
  grant "a" "r" epoch (3600 * time.Second)%Z (7200 * time.Second)%Z.

(** The same grant created 1999999 ns after the epoch: a time that is not
    a whole number of milliseconds. *)
Definition offMillisecondGrant : TokenInfo.t :=
  grant "a" "r" (time.mkTime 1999999 0) (3600 * time.Second)%Z (7200 * time.Second)%Z.

Definition alice : ClientInfo.t :=
  ClientInfo.mk "alice" "s3cret" "https://example.org" "u1".


(** *** Vocabulary of the further properties *)

(** An event that is a transaction bracket, or an operation the driver ran
    outside the session's transaction. *)
Definition outsideTxn (e : Event) : bool :=
  match e with
  | EvInsertOne b _ _ _ => negb b
  | EvDeleteOne b _ _ => negb b
  | EvFindOne b _ _ => negb b
  | _ => true
  end.

(** From [w] to [w'] the driver was only called outside a transaction. *)
Definition ranOutsideTxn (w w' : World) : Prop :=
  ∃ evs, trace w' = trace w ++ evs ∧ forallb outsideTxn evs = true.

(** A Go function that calls the driver outside a transaction only. *)
Definition outsideM {A} (m : M A) : Prop :=
  ∀ w, ranOutsideTxn w (snd (m w)).

(** The id an index lookup hands to the payload lookup: the [BasicID] of
    the row, or the empty string when there is no row. *)
Definition indexedID (db : Database) (cname token : string) : string :=
  match db !! (cname, token) with
  | Some d => tokenData.BasicID (decode_tokenData d)
  | None => ""
  end.

(** The clients collection is none of the three token collections. *)
Definition clientsApart (cc : ClientConfig) (tc : TokenConfig) : Prop :=
  ClientsCName cc ≠ BasicCName tc ∧ ClientsCName cc ≠ AccessCName tc ∧
  ClientsCName cc ≠ RefreshCName tc.

(** The worlds the operations of the token store lead to from the empty
    database, whatever they return. *)
Inductive tokenReachable (rt : Runtime) (ts : TokenStore.t) : World → Prop :=
  | treach_empty : tokenReachable rt ts emptyWorld
  | treach_Create w info :
      tokenReachable rt ts w →
      tokenReachable rt ts (snd (TokenStore.Create rt ts info w))
  | treach_RemoveByCode w code :
      tokenReachable rt ts w →
      tokenReachable rt ts (snd (TokenStore.RemoveByCode ts code w))
  | treach_RemoveByAccess w access :
      tokenReachable rt ts w →
      tokenReachable rt ts (snd (TokenStore.RemoveByAccess ts access w))
  | treach_RemoveByRefresh w refresh :
      tokenReachable rt ts w →
      tokenReachable rt ts (snd (TokenStore.RemoveByRefresh ts refresh w))
  | treach_GetByCode w code :
      tokenReachable rt ts w →
      tokenReachable rt ts (snd (TokenStore.GetByCode rt ts code w))
  | treach_GetByAccess w access :
      tokenReachable rt ts w →
      tokenReachable rt ts (snd (TokenStore.GetByAccess rt ts access w))
  | treach_GetByRefresh w refresh :
      tokenReachable rt ts w →
      tokenReachable rt ts (snd (TokenStore.GetByRefresh rt ts refresh w)).

(** A configuration that names one collection for both indexes. *)
Definition sharedIndexStore : TokenStore.t :=
  TokenStore.mk (mkTokenConfig "oauth2_txn" "oauth2_basic" "oauth2_token" "oauth2_token")
    "oauth2".

(** The wall-clock minute a time falls into. *)
Definition minuteOf (t : time.Time) : Z :=
  ((time.Unix t + time.zoneOffset t) / 60)%Z.

(** A second client. *)
Definition bob : ClientInfo.t :=
  ClientInfo.mk "bob" "hunter2" "https://example.com" "u2".

(** A grant without refresh token. *)
Definition accessOnlyGrant : TokenInfo.t :=
  grant "a" "" epoch time.Hour 0%Z.

(** A grant whose two expiries fall into one minute: the access token
    lives 50 s, the refresh token 20 s. *)
Definition sameMinuteGrant : TokenInfo.t :=
  grant "a" "r" epoch (50 * time.Second)%Z (20 * time.Second)%Z.

(** The world after [hourGrant] was stored in the empty database. *)
Definition hourWorld : World :=
  snd (TokenStore.Create sampleRuntime defaultTokenStore hourGrant emptyWorld).

(* ===================================================================== *)
(** ** The driver under a background context *)
(* ===================================================================== *)

(** Every operation the stores issue is given [CtxBackground]: it reads and
    writes the database itself, whatever the session's transaction is
    doing. *)

Lemma docID_stored d : docID (bson.stored d) = docID d.
Proof. now destruct d. Qed.

Lemma BasicID_stored d :
  tokenData.BasicID (decode_tokenData (bson.stored d))
  = tokenData.BasicID (decode_tokenData d).
Proof. now destruct d. Qed.

Lemma Data_stored d :
  basicData.Data (decode_basicData (bson.stored d))
  = basicData.Data (decode_basicData d).
Proof. now destruct d. Qed.

(** The datetime of a time is its instant in whole milliseconds, rounded
    down. *)
Lemma NewDateTimeFromTime_floor t :
  bson.NewDateTimeFromTime t = (time.unixNano t / 1000000)%Z.
Proof.
  unfold bson.NewDateTimeFromTime, time.Unix, time.Time_Nanosecond, time.Second.
  pose proof (Z.div_mod (time.unixNano t) 1000000000 ltac:(lia)) as Hs.
  pose proof (Z.mod_pos_bound (time.unixNano t) 1000000000 ltac:(lia)) as Hb.
  set (q := (time.unixNano t / 1000000000)%Z) in *.
  set (r := (time.unixNano t mod 1000000000)%Z) in *.
  rewrite Hs at 1.
  replace (1000000000 * q + r)%Z with (r + (q * 1000) * 1000000)%Z by ring.
  rewrite Z.div_add by lia. ring.
Qed.

(** A time of whole milliseconds shown in UTC comes back from the database
    as it went in; any other loses its sub-millisecond digits and its
    zone. *)
Lemma storedTime_whole t :
  time.zoneOffset t = 0%Z →
  (time.unixNano t mod 1000000 = 0)%Z →
  bson.storedTime t = t.
Proof.
  intros Hz Hm. unfold bson.storedTime, bson.DateTime_Time.
  rewrite NewDateTimeFromTime_floor. destruct t as [n z]. cbn in *. subst z.
  f_equal. pose proof (Z.div_mod n 1000000 ltac:(lia)). lia.
Qed.

Lemma storedTime_instant t :
  (time.unixNano (bson.storedTime t) <= time.unixNano t
   < time.unixNano (bson.storedTime t) + 1000000)%Z.
Proof.
  unfold bson.storedTime, bson.DateTime_Time. rewrite NewDateTimeFromTime_floor.
  cbn [time.unixNano].
  pose proof (Z.div_mod (time.unixNano t) 1000000 ltac:(lia)).
  pose proof (Z.mod_pos_bound (time.unixNano t) 1000000 ltac:(lia)). lia.
Qed.

Lemma inTxn_bg w : driver.inTxn CtxBackground w = false.
Proof. reflexivity. Qed.

Lemma view_bg w : driver.view CtxBackground w = store w.
Proof. unfold driver.view. destruct (session w); reflexivity. Qed.

Lemma write_bg wr w :
  driver.write CtxBackground wr w = driver.withStore (driver.applyWrite (store w) wr) w.
Proof. unfold driver.write. destruct (session w); reflexivity. Qed.

Lemma touch_bg w : driver.touch CtxBackground w = w.
Proof. unfold driver.touch. destruct (session w); reflexivity. Qed.

Lemma InsertOne_bg c d w :
  driver.InsertOne CtxBackground c d w =
  match store w !! (c, docID d) with
  | Some _ =>
      (Some (ErrDuplicateKey c (docID d)),
       driver.logEv (EvInsertOne false c d (Some (ErrDuplicateKey c (docID d)))) w)
  | None =>
      (None, driver.logEv (EvInsertOne false c d None)
               (driver.withStore (<[(c, docID d) := bson.stored d]> (store w)) w))
  end.
Proof.
  unfold driver.InsertOne. rewrite view_bg, write_bg, touch_bg.
  destruct (store w !! (c, docID d)); reflexivity.
Qed.

Lemma DeleteOne_bg c id w :
  driver.DeleteOne CtxBackground c id w =
  (None, driver.logEv (EvDeleteOne false c id)
           (driver.withStore (delete (c, id) (store w)) w)).
Proof. unfold driver.DeleteOne. now rewrite write_bg. Qed.

Lemma FindOne_bg c id w :
  driver.FindOne CtxBackground c id w =
  (store w !! (c, id), driver.logEv (EvFindOne false c id) w).
Proof. unfold driver.FindOne. now rewrite view_bg, touch_bg. Qed.

(** The driver's transactions are real: a write made under the session's
    context stays in the transaction's view, and aborting drops it. *)
Lemma abort_drops_session_writes c d w :
  store w !! (c, docID d) = None →
  let run :=
    driver.UseSession (fun ctx =>
      started <- driver.StartTransaction ;;
      err <- driver.InsertOne ctx c d ;;
      e <- driver.AbortTransaction ctx ;;
      ret (err, e)) in
  fst (run w) = (None, None) ∧ store (snd (run w)) = store w.
Proof.
  intros Hfresh. cbv zeta.
  unfold driver.UseSession, bind, ret, driver.StartTransaction,
    driver.InsertOne, driver.AbortTransaction. cbn.
  rewrite Hfresh. cbn. split; reflexivity.
Qed.

(** ... and committing publishes it. *)
Lemma commit_publishes_session_writes c d w :
  store w !! (c, docID d) = None →
  let run :=
    driver.UseSession (fun ctx =>
      started <- driver.StartTransaction ;;
      err <- driver.InsertOne ctx c d ;;
      e <- driver.CommitTransaction ctx ;;
      ret (err, e)) in
  fst (run w) = (None, None) ∧
  store (snd (run w)) = <[(c, docID d) := bson.stored d]> (store w).
Proof.
  intros Hfresh. cbv zeta.
  unfold driver.UseSession, bind, ret, driver.StartTransaction,
    driver.InsertOne, driver.CommitTransaction. cbn.
  rewrite Hfresh. cbn. split; reflexivity.
Qed.

(* ===================================================================== *)
(** ** The transaction wrappers *)
(* ===================================================================== *)

Ltac handler_run Hs :=
  intros w;
  unfold driver.UseSession, bind, ret, driver.StartTransaction; cbn;
  match goal with
  | |- context [driver.logEv EvStartTransaction ?x] =>
      change (driver.logEv EvStartTransaction x) with (begun w)
  end;
  match goal with
  | |- context [?f (begun w)] =>
      let Hsess := fresh "Hsess" in
      pose proof (Hs (begun w)) as Hsess;
      destruct (f (begun w)) as [[? [?|]] ?];
      cbn in Hsess |- *;
      unfold driver.AbortTransaction, driver.CommitTransaction;
      rewrite Hsess; reflexivity
  end.

(** What the caller of a wrapper receives is the result of
    [AbortTransaction] or [CommitTransaction], both [nil] here: the
    callback's own [error] decides only which of the two is called. *)
Lemma ClientStore_colHandler_run {A} cs name (fn : Context → string → M (A * error)) :
  keepsSession (fn CtxBackground name) →
  ∀ w, ClientStore.colHandler cs name fn w =
       let '(r, w1) := fn CtxBackground name (begun w) in
       ((fst r, None), concluded (snd r) w1).
Proof. intros Hs. unfold ClientStore.colHandler, ClientStore.col. handler_run Hs. Qed.

Lemma TokenStore_colHandler_run {A} ts name (fn : Context → string → M (A * error)) :
  keepsSession (fn CtxBackground name) →
  ∀ w, TokenStore.colHandler ts name fn w =
       let '(r, w1) := fn CtxBackground name (begun w) in
       ((fst r, None), concluded (snd r) w1).
Proof. intros Hs. unfold TokenStore.colHandler, TokenStore.col. handler_run Hs. Qed.

Lemma TokenStore_dbHandler_run {A} ts (fn : Context → M (A * error)) :
  keepsSession (fn CtxBackground) →
  ∀ w, TokenStore.dbHandler ts fn w =
       let '(r, w1) := fn CtxBackground (begun w) in
       ((fst r, None), concluded (snd r) w1).
Proof. intros Hs. unfold TokenStore.dbHandler. handler_run Hs. Qed.

(** The callbacks the stores pass are built from background operations. *)
Lemma keeps_ret {A} (a : A) : keepsSession (ret a).
Proof. intros w. reflexivity. Qed.

Lemma keeps_bind {A B} (m : M A) (k : A → M B) :
  keepsSession m → (∀ a, keepsSession (k a)) → keepsSession (bind m k).
Proof.
  intros Hm Hk w. unfold bind.
  specialize (Hm w). destruct (m w) as [a w1]. cbn in Hm.
  rewrite <- Hm. apply Hk.
Qed.

Lemma keeps_InsertOne c d : keepsSession (driver.InsertOne CtxBackground c d).
Proof.
  intros w. rewrite InsertOne_bg. destruct (store w !! (c, docID d)); reflexivity.
Qed.

Lemma keeps_DeleteOne c id : keepsSession (driver.DeleteOne CtxBackground c id).
Proof. intros w. rewrite DeleteOne_bg. reflexivity. Qed.

Lemma keeps_FindOne c id : keepsSession (driver.FindOne CtxBackground c id).
Proof. intros w. rewrite FindOne_bg. reflexivity. Qed.

Lemma keeps_rangeMap rt m : keepsSession (rangeMap rt m).
Proof. intros w. reflexivity. Qed.

Lemma keeps_insertEach ts l : keepsSession (TokenStore.insertEach ts CtxBackground l).
Proof.
  induction l as [|[key value] rest IH]; cbn [TokenStore.insertEach].
  - apply keeps_ret.
  - apply keeps_bind; [apply keeps_InsertOne|].
    intros [e|]; [apply keeps_ret | apply IH].
Qed.

Create HintDb keeps.

#[local] Hint Resolve keeps_ret keeps_InsertOne keeps_DeleteOne keeps_FindOne
  keeps_rangeMap keeps_insertEach : keeps.

Ltac keeps :=
  repeat first
    [ apply keeps_bind; [|intros ?]
    | solve [auto with keeps]
    | match goal with |- keepsSession (match ?x with _ => _ end) => destruct x end ].

(* ===================================================================== *)
(** ** What each operation of the client store does *)
(* ===================================================================== *)

Lemma infoOf_entityOf info : infoOf (entityOf info) = info.
Proof. destruct info; reflexivity. Qed.

Lemma Set_run cs info w :
  ClientStore.Set_ cs info w =
  let '(err, w1) :=
    driver.InsertOne CtxBackground (ClientsCName (ClientStore.ccfg cs))
      (ClientDoc (entityOf info)) (begun w) in
  (None, concluded err w1).
Proof.
  unfold ClientStore.Set_, bind at 1.
  rewrite ClientStore_colHandler_run by keeps.
  unfold bind, ret, entityOf.
  destruct (driver.InsertOne _ _ _ _) as [err w1]. reflexivity.
Qed.

Lemma GetByID_run cs id w :
  ClientStore.GetByID cs id w =
  let c := ClientsCName (ClientStore.ccfg cs) in
  let w1 := driver.logEv (EvFindOne false c id) (begun w) in
  match store w !! (c, id) with
  | None => ((None, None), concluded (Some ErrNoDocuments) w1)
  | Some d => ((Some (infoOf (decode_client d)), None), concluded None w1)
  end.
Proof.
  unfold ClientStore.GetByID.
  rewrite ClientStore_colHandler_run by keeps.
  unfold bind. rewrite FindOne_bg. cbn.
  destruct (store w !! _); reflexivity.
Qed.

Lemma RemoveByID_run cs id w :
  ClientStore.RemoveByID cs id w =
  let c := ClientsCName (ClientStore.ccfg cs) in
  (None, concluded None
           (driver.logEv (EvDeleteOne false c id)
              (driver.withStore (delete (c, id) (store w)) (begun w)))).
Proof.
  unfold ClientStore.RemoveByID, bind at 1.
  rewrite ClientStore_colHandler_run by keeps.
  unfold bind. rewrite DeleteOne_bg. reflexivity.
Qed.

(** The part of the round trip that holds: a client set under a fresh id
    is read back field by field. *)
Lemma Set_then_GetByID cs info w :
  store w !! (ClientsCName (ClientStore.ccfg cs), ClientInfo.GetID info) = None →
  fst (ClientStore.GetByID cs (ClientInfo.GetID info)
         (snd (ClientStore.Set_ cs info w))) = (Some info, None).
Proof.
  intros Hfresh. rewrite Set_run, InsertOne_bg. cbn [docID entityOf client.ID].
  cbn. rewrite Hfresh. rewrite GetByID_run. cbn.
  rewrite lookup_insert_eq. cbn. now destruct info.
Qed.

(* ===================================================================== *)
(** ** What each operation of the token store does *)
(* ===================================================================== *)

Lemma Create_marshal_fault rt ts info w jv e :
  json_Marshal rt info = (jv, Some e) →
  TokenStore.Create rt ts info w = (Some e, w).
Proof. intros Hm. unfold TokenStore.Create. rewrite Hm. reflexivity. Qed.

Lemma Create_code_run rt ts info w jv :
  json_Marshal rt info = (jv, None) →
  TokenInfo.GetCode info ≠ "" →
  TokenStore.Create rt ts info w =
  let '(err, w1) :=
    driver.InsertOne CtxBackground (BasicCName (TokenStore.tcfg ts))
      (codeDoc info jv) (begun w) in
  (None, concluded err w1).
Proof.
  intros Hm Hcode. unfold TokenStore.Create. rewrite Hm.
  destruct (decide (TokenInfo.GetCode info ≠ "")) as [_|]; [|contradiction].
  unfold bind at 1.
  rewrite TokenStore_colHandler_run by keeps.
  unfold bind, ret, codeDoc.
  destruct (driver.InsertOne _ _ _ _) as [err w1]. reflexivity.
Qed.

Lemma Create_grant_run rt ts info w jv :
  json_Marshal rt info = (jv, None) →
  TokenInfo.GetCode info = "" →
  TokenStore.Create rt ts info w =
  let '(err, w1) :=
    TokenStore.insertEach ts CtxBackground (grantEntries rt ts info jv w)
      (afterRange (begun (afterOID w))) in
  (None, concluded err w1).
Proof.
  intros Hm Hcode. unfold TokenStore.Create. rewrite Hm.
  destruct (decide (TokenInfo.GetCode info ≠ "")) as [|_]; [contradiction|].
  unfold bind at 1. unfold NewObjectIDHex. fold (afterOID w).
  unfold bind at 1.
  rewrite TokenStore_dbHandler_run by keeps.
  unfold bind, ret, rangeMap, grantEntries. cbn.
  match goal with
  | |- context [TokenStore.insertEach ts CtxBackground ?l ?x] =>
      change x with (afterRange (begun (afterOID w)));
      destruct (TokenStore.insertEach ts CtxBackground l
                  (afterRange (begun (afterOID w)))) as [err w1]
  end.
  reflexivity.
Qed.

Lemma RemoveByAccess_run ts access w :
  TokenStore.RemoveByAccess ts access w =
  let c := AccessCName (TokenStore.tcfg ts) in
  (None, concluded None
           (driver.logEv (EvDeleteOne false c access)
              (driver.withStore (delete (c, access) (store w)) (begun w)))).
Proof.
  unfold TokenStore.RemoveByAccess, bind at 1.
  rewrite TokenStore_colHandler_run by keeps.
  unfold bind. rewrite DeleteOne_bg. reflexivity.
Qed.

Lemma getBasicID_run ts cname token w :
  TokenStore.getBasicID ts cname token w =
  let w1 := driver.logEv (EvFindOne false cname token) (begun w) in
  match store w !! (cname, token) with
  | None => (("", None), concluded (Some ErrNoDocuments) w1)
  | Some d => ((tokenData.BasicID (decode_tokenData d), None), concluded None w1)
  end.
Proof.
  unfold TokenStore.getBasicID.
  rewrite TokenStore_colHandler_run by keeps.
  unfold bind. rewrite FindOne_bg. cbn.
  destruct (store w !! _); reflexivity.
Qed.

Lemma getData_run rt ts basicID w :
  TokenStore.getData rt ts basicID w =
  let c := BasicCName (TokenStore.tcfg ts) in
  let w1 := driver.logEv (EvFindOne false c basicID) (begun w) in
  match store w !! (c, basicID) with
  | None => ((TokenInfo.zero, None), concluded (Some ErrNoDocuments) w1)
  | Some d =>
      let r := json_Unmarshal rt (basicData.Data (decode_basicData d)) TokenInfo.zero in
      ((fst r, None), concluded (snd r) w1)
  end.
Proof.
  unfold TokenStore.getData.
  rewrite TokenStore_colHandler_run by keeps.
  unfold bind. rewrite FindOne_bg. cbn.
  destruct (store w !! _); reflexivity.
Qed.

(** Neither wrapper changes the database by itself. *)
Lemma store_begun w : store (begun w) = store w.
Proof. reflexivity. Qed.

Lemma store_concluded r w : store (concluded r w) = store w.
Proof. reflexivity. Qed.

Lemma trace_concluded r w :
  trace (concluded r w) =
  trace w ++ [match r with Some _ => EvAbortTransaction | None => EvCommitTransaction end].
Proof. reflexivity. Qed.

(** With a lookup that misses, [getBasicID] hands back an empty id and no
    fault, so both getters go on to read the payload keyed by the empty
    string. *)
Lemma GetByIndex_miss rt ts cname token w :
  store w !! (cname, token) = None →
  (r <- TokenStore.getBasicID ts cname token ;;
   let '(basicID, err) := r in
   if decide (err ≠ None ∧ basicID = "") then ret (None, err)
   else d <- TokenStore.getData rt ts basicID ;; ret (Some (fst d), snd d)) w
  = let '(d, w') :=
      TokenStore.getData rt ts ""
        (concluded (Some ErrNoDocuments)
           (driver.logEv (EvFindOne false cname token) (begun w))) in
    ((Some (fst d), snd d), w').
Proof.
  intros Hmiss. unfold bind at 1. rewrite getBasicID_run. cbn zeta.
  rewrite Hmiss.
  destruct (decide (@None Err ≠ None ∧ "" = "")) as [[Hne _]|_]; [congruence|].
  reflexivity.
Qed.

(* ===================================================================== *)
(** ** The insert loop of [Create] *)
(* ===================================================================== *)

(** When the loop ends without a fault, every entry it was given is in the
    database (as BSON keeps it), nothing that was there is gone or
    changed, and nothing else was added. *)
Lemma insertEach_ok ts l : ∀ w w',
  TokenStore.insertEach ts CtxBackground l w = (None, w') →
  (∀ k v, store w !! k = Some v → store w' !! k = Some v) ∧
  (∀ c d, (c, d) ∈ l → store w' !! (c, docID d) = Some (bson.stored d)) ∧
  (∀ k v, store w' !! k = Some v →
     store w !! k = Some v ∨
     ∃ c d, (c, d) ∈ l ∧ k = (c, docID d) ∧ v = bson.stored d).
Proof.
  induction l as [|[c d] rest IH]; intros w w' Hrun.
  - cbn in Hrun. injection Hrun as <-.
    repeat split; auto. intros c d Hin. inversion Hin.
  - cbn [TokenStore.insertEach] in Hrun. unfold bind, TokenStore.col in Hrun.
    rewrite InsertOne_bg in Hrun.
    destruct (store w !! (c, docID d)) eqn:Hfresh; [discriminate Hrun|].
    apply IH in Hrun as (Hkeep & Hin & Hnew). cbn in Hkeep, Hnew.
    split; [|split].
    + intros k v Hk. apply Hkeep. rewrite lookup_insert_ne; [done|].
      intros <-. congruence.
    + intros c' d' [Heq | Hrest]%elem_of_cons.
      * injection Heq as -> ->. apply Hkeep. apply lookup_insert_eq.
      * now apply Hin.
    + intros k v Hk. apply Hnew in Hk as [Hk | (c' & d' & Hin' & -> & ->)].
      * destruct (decide ((c, docID d) = k)) as [<-|Hne].
        -- rewrite lookup_insert_eq in Hk. injection Hk as <-.
           right. exists c, d. split; [left|]; done.
        -- rewrite lookup_insert_ne in Hk by done. now left.
      * right. exists c', d'. split; [now right | done].
Qed.

(** The loop ends without a fault when no two entries share a collection
    and none of the keys is taken. *)
Lemma insertEach_fresh ts l : ∀ w,
  NoDup (fst <$> l) →
  (∀ c d, (c, d) ∈ l → store w !! (c, docID d) = None) →
  fst (TokenStore.insertEach ts CtxBackground l w) = None.
Proof.
  induction l as [|[c d] rest IH]; intros w Hnd Hfresh; [reflexivity|].
  cbn [TokenStore.insertEach]. unfold bind, TokenStore.col.
  rewrite InsertOne_bg, (Hfresh c d) by left.
  apply NoDup_cons in Hnd as [Hc Hnd].
  apply IH; [done|]. intros c' d' Hin. cbn.
  rewrite lookup_insert_ne.
  - apply Hfresh. now right.
  - intros [= -> _]. apply Hc. apply list_elem_of_fmap. now exists (c', d').
Qed.

(* ===================================================================== *)
(** ** The payloads of a grant *)
(* ===================================================================== *)

Section payloads.
Context (ts : TokenStore.t) (info : TokenInfo.t) (jv : list Byte.byte) (id : string).
Hypothesis Hdistinct : distinctCNames (TokenStore.tcfg ts).

Let basicDoc : Doc :=
  BasicDoc (basicData.mk id jv (snd (TokenStore.expiries info))).
Let accessDoc : Doc :=
  TokenDoc (tokenData.mk (TokenInfo.GetAccess info) id (fst (TokenStore.expiries info))).
Let refreshDoc : Doc :=
  TokenDoc (tokenData.mk (TokenInfo.GetRefresh info) id (snd (TokenStore.expiries info))).

Lemma grantPayloads_basic :
  TokenStore.grantPayloads ts info jv id !! BasicCName (TokenStore.tcfg ts)
  = Some basicDoc.
Proof using Hdistinct.
  destruct Hdistinct as (Hba & Hbr & Har).
  unfold TokenStore.grantPayloads.
  destruct (decide (TokenInfo.GetRefresh info ≠ "")).
  - rewrite lookup_insert_ne by done. rewrite lookup_insert_ne by done.
    apply lookup_insert_eq.
  - rewrite lookup_insert_ne by done. apply lookup_insert_eq.
Qed.

Lemma grantPayloads_access :
  TokenStore.grantPayloads ts info jv id !! AccessCName (TokenStore.tcfg ts)
  = Some accessDoc.
Proof using Hdistinct.
  destruct Hdistinct as (Hba & Hbr & Har).
  unfold TokenStore.grantPayloads.
  destruct (decide (TokenInfo.GetRefresh info ≠ "")).
  - rewrite lookup_insert_ne by done. apply lookup_insert_eq.
  - apply lookup_insert_eq.
Qed.

Lemma grantPayloads_refresh :
  TokenInfo.GetRefresh info ≠ "" →
  TokenStore.grantPayloads ts info jv id !! RefreshCName (TokenStore.tcfg ts)
  = Some refreshDoc.
Proof.
  intros Hr. unfold TokenStore.grantPayloads.
  destruct (decide (TokenInfo.GetRefresh info ≠ "")); [|contradiction].
  apply lookup_insert_eq.
Qed.

(** The map holds these and nothing else. *)
Lemma grantPayloads_inv cn d :
  TokenStore.grantPayloads ts info jv id !! cn = Some d →
  (cn = BasicCName (TokenStore.tcfg ts) ∧ d = basicDoc) ∨
  (cn = AccessCName (TokenStore.tcfg ts) ∧ d = accessDoc) ∨
  (cn = RefreshCName (TokenStore.tcfg ts) ∧ TokenInfo.GetRefresh info ≠ "" ∧
   d = refreshDoc).
Proof using Hdistinct.
  intros Hl.
  destruct (decide (cn = BasicCName (TokenStore.tcfg ts))) as [->|Hb].
  { left. rewrite grantPayloads_basic in Hl. now injection Hl as <-. }
  destruct (decide (cn = AccessCName (TokenStore.tcfg ts))) as [->|Ha].
  { right; left. rewrite grantPayloads_access in Hl. now injection Hl as <-. }
  right; right. unfold TokenStore.grantPayloads in Hl.
  destruct (decide (TokenInfo.GetRefresh info ≠ "")) as [Hr|Hr].
  - destruct (decide (cn = RefreshCName (TokenStore.tcfg ts))) as [->|Hre].
    + rewrite lookup_insert_eq in Hl. now injection Hl as <-.
    + rewrite !lookup_insert_ne in Hl by done. now rewrite lookup_empty in Hl.
  - rewrite !lookup_insert_ne in Hl by done. now rewrite lookup_empty in Hl.
Qed.

End payloads.

(** What a [range] loop visits, for a runtime that visits every entry
    once. *)
Lemma grantEntries_elem rt ts info jv w c d :
  rangeOrder_ok rt →
  (c, d) ∈ grantEntries rt ts info jv w ↔
  TokenStore.grantPayloads ts info jv (ObjectIDHex rt (oidCounter w)) !! c = Some d.
Proof.
  intros Hperm. unfold grantEntries.
  rewrite (Hperm _ _). apply elem_of_map_to_list.
Qed.

Lemma grantEntries_NoDup rt ts info jv w :
  rangeOrder_ok rt → NoDup (fst <$> grantEntries rt ts info jv w).
Proof.
  intros Hperm. unfold grantEntries.
  rewrite (Hperm _ _). apply NoDup_fst_map_to_list.
Qed.

(* ===================================================================== *)
(** ** Expiry times *)
(* ===================================================================== *)

(** Adding whole minutes moves the instant and leaves the second within
    the minute where it was. *)
Lemma Time_Second_Add_minutes t (k : Z) :
  time.Time_Second (time.Add t (k * time.Minute)%Z) = time.Time_Second t.
Proof.
  unfold time.Time_Second, time.Unix, time.Add, time.Minute. cbn [time.unixNano time.zoneOffset].
  replace (time.unixNano t + k * (60 * time.Second))%Z
    with (time.unixNano t + (k * 60) * time.Second)%Z by ring.
  rewrite Z.div_add by (unfold time.Second; lia).
  replace (time.unixNano t / time.Second + k * 60 + time.zoneOffset t)%Z
    with (time.unixNano t / time.Second + time.zoneOffset t + k * 60)%Z by ring.
  apply Z.mod_add. lia.
Qed.

(** What lines 173-181 compute when there is a refresh token: the access
    expiry gives way to the refresh expiry exactly when its second within
    the minute is the larger one. *)
Lemma expiries_refresh info :
  TokenInfo.GetRefresh info ≠ "" →
  let aexp := time.Add (TokenInfo.GetAccessCreateAt info) (TokenInfo.GetAccessExpiresIn info) in
  let rexp := time.Add (TokenInfo.GetRefreshCreateAt info) (TokenInfo.GetRefreshExpiresIn info) in
  TokenStore.expiries info =
  (if (time.Time_Second rexp <? time.Time_Second aexp)%Z then rexp else aexp, rexp).
Proof.
  intros Hr. cbv zeta. unfold TokenStore.expiries.
  destruct (decide (TokenInfo.GetRefresh info ≠ "")); [|contradiction].
  rewrite Z.gtb_ltb. now destruct (_ <? _)%Z.
Qed.

Lemma expiries_no_refresh info :
  TokenInfo.GetRefresh info = "" →
  let aexp := time.Add (TokenInfo.GetAccessCreateAt info) (TokenInfo.GetAccessExpiresIn info) in
  TokenStore.expiries info = (aexp, aexp).
Proof.
  intros Hr. cbv zeta. unfold TokenStore.expiries.
  destruct (decide (TokenInfo.GetRefresh info ≠ "")); [contradiction|reflexivity].
Qed.

(** Lifetimes of whole minutes counted from one creation time are never
    clamped, whichever is the longer. *)
Lemma expiries_whole_minutes info T (ka kr : Z) :
  TokenInfo.GetRefresh info ≠ "" →
  TokenInfo.GetAccessCreateAt info = T →
  TokenInfo.GetRefreshCreateAt info = T →
  TokenInfo.GetAccessExpiresIn info = (ka * time.Minute)%Z →
  TokenInfo.GetRefreshExpiresIn info = (kr * time.Minute)%Z →
  TokenStore.expiries info =
  (time.Add T (ka * time.Minute)%Z, time.Add T (kr * time.Minute)%Z).
Proof.
  intros Hr Ha Hrc Hal Hrl. rewrite expiries_refresh by done. cbv zeta.
  rewrite Ha, Hrc, Hal, Hrl, !Time_Second_Add_minutes.
  now rewrite Z.ltb_irrefl.
Qed.

(* ===================================================================== *)
(** ** A grant whose inserts all go through *)
(* ===================================================================== *)

(** What the loop hands to the driver when it meets no fault: its entries,
    one insert each, as they are. *)
Lemma insertEach_ok_trace ts l : ∀ w w',
  TokenStore.insertEach ts CtxBackground l w = (None, w') →
  trace w' = trace w ++ ((λ e, EvInsertOne false (fst e) (snd e) None) <$> l).
Proof.
  induction l as [|[c d] rest IH]; intros w w' Hrun.
  - cbn in Hrun. injection Hrun as <-. cbn. now rewrite app_nil_r.
  - cbn [TokenStore.insertEach] in Hrun. unfold bind, TokenStore.col in Hrun.
    rewrite InsertOne_bg in Hrun.
    destruct (store w !! (c, docID d)); [discriminate Hrun|].
    apply IH in Hrun. rewrite Hrun. cbn. now rewrite <- app_assoc.
Qed.

Lemma Create_grant_hands_over rt ts info w jv :
  rangeOrder_ok rt →
  json_Marshal rt info = (jv, None) →
  TokenInfo.GetCode info = "" →
  let payloads := TokenStore.grantPayloads ts info jv (ObjectIDHex rt (oidCounter w)) in
  (∀ c d, payloads !! c = Some d → store w !! (c, docID d) = None) →
  ∀ c d, payloads !! c = Some d →
         EvInsertOne false c d None ∈ trace (snd (TokenStore.Create rt ts info w)).
Proof.
  intros Hperm Hm Hcode payloads Hfresh c d Hl.
  rewrite (Create_grant_run _ _ _ _ _ Hm Hcode).
  assert (fst (TokenStore.insertEach ts CtxBackground (grantEntries rt ts info jv w)
                 (afterRange (begun (afterOID w)))) = None) as Hnone.
  { apply insertEach_fresh; [now apply grantEntries_NoDup|].
    intros c' d' Hin. apply Hfresh. now apply grantEntries_elem in Hin. }
  destruct (TokenStore.insertEach _ _ _ _) as [err w1] eqn:Hrun.
  cbn in Hnone. subst err. apply insertEach_ok_trace in Hrun.
  cbn [snd]. rewrite trace_concluded, Hrun.
  apply elem_of_app. left. apply elem_of_app. right.
  apply list_elem_of_fmap. exists (c, d). split; [reflexivity|].
  now apply grantEntries_elem.
Qed.

Lemma Create_grant_stores rt ts info w jv :
  rangeOrder_ok rt →
  json_Marshal rt info = (jv, None) →
  TokenInfo.GetCode info = "" →
  let payloads := TokenStore.grantPayloads ts info jv (ObjectIDHex rt (oidCounter w)) in
  (∀ c d, payloads !! c = Some d → store w !! (c, docID d) = None) →
  let w' := snd (TokenStore.Create rt ts info w) in
  fst (TokenStore.Create rt ts info w) = None ∧
  committed w' ∧
  (∀ c d, payloads !! c = Some d → store w' !! (c, docID d) = Some (bson.stored d)) ∧
  (∀ k v, store w !! k = Some v → store w' !! k = Some v).
Proof.
  intros Hperm Hm Hcode payloads Hfresh w'. subst w'.
  rewrite (Create_grant_run _ _ _ _ _ Hm Hcode).
  assert (fst (TokenStore.insertEach ts CtxBackground (grantEntries rt ts info jv w)
                 (afterRange (begun (afterOID w)))) = None) as Hnone.
  { apply insertEach_fresh; [now apply grantEntries_NoDup|].
    intros c d Hin. apply Hfresh. now apply grantEntries_elem in Hin. }
  destruct (TokenStore.insertEach _ _ _ _) as [err w1] eqn:Hrun.
  cbn in Hnone. subst err.
  apply insertEach_ok in Hrun as (Hkeep & Hin & _).
  cbn [fst snd]. rewrite store_concluded.
  repeat split.
  - unfold committed. rewrite trace_concluded. apply last_snoc.
  - intros c d Hl. apply Hin. now apply grantEntries_elem.
  - apply Hkeep.
Qed.

(* ===================================================================== *)
(** ** An authorization code *)
(* ===================================================================== *)

(** A [Create] that takes the code branch touches at most the payload
    keyed by the code. *)
Lemma Create_code_frame rt ts info w k :
  TokenInfo.GetCode info ≠ "" →
  k ≠ (BasicCName (TokenStore.tcfg ts), TokenInfo.GetCode info) →
  store (snd (TokenStore.Create rt ts info w)) !! k = store w !! k.
Proof.
  intros Hcode Hk.
  destruct (json_Marshal rt info) as [jv [e|]] eqn:Hm.
  - now rewrite (Create_marshal_fault _ _ _ _ _ _ Hm).
  - rewrite (Create_code_run _ _ _ _ _ Hm Hcode), InsertOne_bg.
    cbn [docID codeDoc basicData.ID]. rewrite store_begun.
    destruct (store w !! _); cbn; [done|]. now rewrite lookup_insert_ne.
Qed.

(** ... and what was in the database stays. *)
Lemma Create_code_keeps rt ts info w k v :
  TokenInfo.GetCode info ≠ "" →
  store w !! k = Some v →
  store (snd (TokenStore.Create rt ts info w)) !! k = Some v.
Proof.
  intros Hcode Hk.
  destruct (decide (k = (BasicCName (TokenStore.tcfg ts), TokenInfo.GetCode info)))
    as [->|Hne]; [|now rewrite Create_code_frame].
  destruct (json_Marshal rt info) as [jv [e|]] eqn:Hm.
  - now rewrite (Create_marshal_fault _ _ _ _ _ _ Hm).
  - rewrite (Create_code_run _ _ _ _ _ Hm Hcode), InsertOne_bg.
    cbn [docID codeDoc basicData.ID]. rewrite store_begun, Hk. exact Hk.
Qed.

(** C4: when the token information carries a non-empty authorization code
    (and serializes), [Create] issues exactly one insert: into the basic
    collection, of the payload keyed by the code itself and expiring at
    [codeCreateAt + codeExpiresIn].  A code not yet stored thereby becomes
    the one new document of the database (kept as BSON keeps it); no row
    of the access or of the refresh collection appears or changes. *)
Theorem Create_code_inserts_one_basic_payload rt ts info w jv :
  distinctCNames (TokenStore.tcfg ts) →
  json_Marshal rt info = (jv, None) →
  TokenInfo.GetCode info ≠ "" →
  let basic := BasicCName (TokenStore.tcfg ts) in
  let code := TokenInfo.GetCode info in
  let payload :=
    BasicDoc (basicData.mk code jv
                (time.Add (TokenInfo.GetCodeCreateAt info)
                          (TokenInfo.GetCodeExpiresIn info))) in
  let w' := snd (TokenStore.Create rt ts info w) in
  (∃ r fin, trace w' =
            trace w ++ [EvStartTransaction; EvInsertOne false basic payload r; fin]) ∧
  (store w !! (basic, code) = None →
   store w' = <[(basic, code) := bson.stored payload]> (store w)) ∧
  (∀ id, store w' !! (AccessCName (TokenStore.tcfg ts), id)
         = store w !! (AccessCName (TokenStore.tcfg ts), id)) ∧
  (∀ id, store w' !! (RefreshCName (TokenStore.tcfg ts), id)
         = store w !! (RefreshCName (TokenStore.tcfg ts), id)).
Proof.
  intros (Hba & Hbr & _) Hm Hcode basic code payload w'.
  split; [|split; [|split]].
  - subst w'. rewrite (Create_code_run _ _ _ _ _ Hm Hcode), InsertOne_bg.
    destruct (store (begun w) !! _); cbn -[app]; rewrite <- !app_assoc;
      eexists _, _; reflexivity.
  - intros Hfresh. subst w'.
    rewrite (Create_code_run _ _ _ _ _ Hm Hcode), InsertOne_bg.
    cbn [docID codeDoc basicData.ID]. rewrite store_begun.
    fold basic code. rewrite Hfresh. reflexivity.
  - intros id. apply Create_code_frame; [done|]. intros [= Heq _]. now apply Hba.
  - intros id. apply Create_code_frame; [done|]. intros [= Heq _]. now apply Hbr.
Qed.

(** What the two getters return when the index lookup misses: whatever
    the payload keyed by the empty string holds, and no fault. *)
Lemma getData_result rt ts basicID w :
  fst (TokenStore.getData rt ts basicID w) =
  match store w !! (BasicCName (TokenStore.tcfg ts), basicID) with
  | None => (TokenInfo.zero, None)
  | Some d =>
      (fst (json_Unmarshal rt (basicData.Data (decode_basicData d)) TokenInfo.zero),
       None)
  end.
Proof. rewrite getData_run. cbv zeta. now destruct (store w !! _). Qed.

Lemma GetByAccess_miss rt ts access w :
  store w !! (AccessCName (TokenStore.tcfg ts), access) = None →
  fst (TokenStore.GetByAccess rt ts access w) =
  let d := fst (TokenStore.getData rt ts "" w) in (Some (fst d), snd d).
Proof.
  intros Hmiss. unfold TokenStore.GetByAccess.
  rewrite (GetByIndex_miss _ _ _ _ _ Hmiss).
  rewrite !getData_run. cbv zeta. rewrite store_concluded. cbn [store driver.logEv].
  rewrite store_begun.
  now destruct (store w !! (BasicCName (TokenStore.tcfg ts), "")).
Qed.

Lemma GetByRefresh_miss rt ts refresh w :
  store w !! (RefreshCName (TokenStore.tcfg ts), refresh) = None →
  fst (TokenStore.GetByRefresh rt ts refresh w) =
  let d := fst (TokenStore.getData rt ts "" w) in (Some (fst d), snd d).
Proof.
  intros Hmiss. unfold TokenStore.GetByRefresh.
  rewrite (GetByIndex_miss _ _ _ _ _ Hmiss).
  rewrite !getData_run. cbv zeta. rewrite store_concluded. cbn [store driver.logEv].
  rewrite store_begun.
  now destruct (store w !! (BasicCName (TokenStore.tcfg ts), "")).
Qed.

(** C10: a non-empty authorization code sends [Create] down the code
    branch whatever else the token information carries: no row of the
    access or of the refresh collection is written, so an access or
    refresh token that had no row still has none, and [GetByAccess] and
    [GetByRefresh] answer for it exactly as they did before the
    [Create]. *)
Theorem Create_code_never_indexes_tokens rt ts info w :
  distinctCNames (TokenStore.tcfg ts) →
  TokenInfo.GetCode info ≠ "" →
  let access := AccessCName (TokenStore.tcfg ts) in
  let refresh := RefreshCName (TokenStore.tcfg ts) in
  let w' := snd (TokenStore.Create rt ts info w) in
  (∀ id, store w' !! (access, id) = store w !! (access, id)) ∧
  (∀ id, store w' !! (refresh, id) = store w !! (refresh, id)) ∧
  (store w !! (access, TokenInfo.GetAccess info) = None →
   store w' !! (access, TokenInfo.GetAccess info) = None ∧
   fst (TokenStore.GetByAccess rt ts (TokenInfo.GetAccess info) w')
   = fst (TokenStore.GetByAccess rt ts (TokenInfo.GetAccess info) w)) ∧
  (store w !! (refresh, TokenInfo.GetRefresh info) = None →
   store w' !! (refresh, TokenInfo.GetRefresh info) = None ∧
   fst (TokenStore.GetByRefresh rt ts (TokenInfo.GetRefresh info) w')
   = fst (TokenStore.GetByRefresh rt ts (TokenInfo.GetRefresh info) w)).
Proof.
  intros (Hba & Hbr & _) Hcode access refresh w'.
  assert (∀ id, store w' !! (access, id) = store w !! (access, id)) as Ha.
  { intros id. apply Create_code_frame; [done|]. intros [= Heq _]. now apply Hba. }
  assert (∀ id, store w' !! (refresh, id) = store w !! (refresh, id)) as Hr.
  { intros id. apply Create_code_frame; [done|]. intros [= Heq _]. now apply Hbr. }
  assert (store w' !! (BasicCName (TokenStore.tcfg ts), "")
          = store w !! (BasicCName (TokenStore.tcfg ts), "")) as Hempty.
  { apply Create_code_frame; [done|]. intros [= Heq]. now apply Hcode. }
  repeat split; try done.
  - now rewrite Ha.
  - rewrite !GetByAccess_miss by (try rewrite Ha; done).
    cbv zeta. now rewrite !getData_result, Hempty.
  - now rewrite Hr.
  - rewrite !GetByRefresh_miss by (try rewrite Hr; done).
    cbv zeta. now rewrite !getData_result, Hempty.
Qed.

(* ===================================================================== *)
(** ** Removing by access token *)
(* ===================================================================== *)

(** C8: [RemoveByAccess] deletes the row of the access collection keyed by
    the token and nothing else: every row of the refresh collection and
    every payload of the basic collection is the same afterwards, and so
    is every other access row. *)
Theorem RemoveByAccess_no_cascade ts access w :
  distinctCNames (TokenStore.tcfg ts) →
  let w' := snd (TokenStore.RemoveByAccess ts access w) in
  store w' = delete (AccessCName (TokenStore.tcfg ts), access) (store w) ∧
  store w' !! (AccessCName (TokenStore.tcfg ts), access) = None ∧
  (∀ id, store w' !! (RefreshCName (TokenStore.tcfg ts), id)
         = store w !! (RefreshCName (TokenStore.tcfg ts), id)) ∧
  (∀ id, store w' !! (BasicCName (TokenStore.tcfg ts), id)
         = store w !! (BasicCName (TokenStore.tcfg ts), id)) ∧
  (∀ id, id ≠ access →
         store w' !! (AccessCName (TokenStore.tcfg ts), id)
         = store w !! (AccessCName (TokenStore.tcfg ts), id)).
Proof.
  intros (Hba & Hbr & Har) w'.
  assert (store w' = delete (AccessCName (TokenStore.tcfg ts), access) (store w)) as ->.
  { subst w'. now rewrite RemoveByAccess_run. }
  repeat split.
  - apply lookup_delete_eq.
  - intros id. apply lookup_delete_ne. intros [= Heq _]. now apply Har.
  - intros id. apply lookup_delete_ne. intros [= Heq _]. now apply Hba.
  - intros id Hne. apply lookup_delete_ne. intros [= Heq]. now apply Hne.
Qed.

(* ===================================================================== *)
(** ** Grants *)
(* ===================================================================== *)

(** C7 (as amended): a grant whose access token lives 3600 s and whose
    refresh token lives 7200 s, both created at [T], is handed to the
    driver as an access row expiring at [T + 3600 s], a refresh row
    expiring at [T + 7200 s] and a basic payload expiring at [T + 7200 s],
    for every [T]; the database holds the three with these expiries as
    BSON datetimes, that is rounded down to the millisecond: the very
    instants [T + 3600 s] and [T + 7200 s] when [T] is a whole number of
    milliseconds, and less than a millisecond before them otherwise (the
    three keys being free, so that the inserts go through). *)
Theorem Create_3600_7200 rt ts info w jv T :
  rangeOrder_ok rt →
  distinctCNames (TokenStore.tcfg ts) →
  json_Marshal rt info = (jv, None) →
  TokenInfo.GetCode info = "" →
  TokenInfo.GetRefresh info ≠ "" →
  TokenInfo.GetAccessCreateAt info = T →
  TokenInfo.GetRefreshCreateAt info = T →
  TokenInfo.GetAccessExpiresIn info = (3600 * time.Second)%Z →
  TokenInfo.GetRefreshExpiresIn info = (7200 * time.Second)%Z →
  let id := ObjectIDHex rt (oidCounter w) in
  let basic := BasicCName (TokenStore.tcfg ts) in
  let access := AccessCName (TokenStore.tcfg ts) in
  let refresh := RefreshCName (TokenStore.tcfg ts) in
  store w !! (basic, id) = None →
  store w !! (access, TokenInfo.GetAccess info) = None →
  store w !! (refresh, TokenInfo.GetRefresh info) = None →
  let w' := snd (TokenStore.Create rt ts info w) in
  let aexp := time.Add T (3600 * time.Second)%Z in
  let rexp := time.Add T (7200 * time.Second)%Z in
  (EvInsertOne false access
     (TokenDoc (tokenData.mk (TokenInfo.GetAccess info) id aexp)) None ∈ trace w' ∧
   EvInsertOne false refresh
     (TokenDoc (tokenData.mk (TokenInfo.GetRefresh info) id rexp)) None ∈ trace w' ∧
   EvInsertOne false basic (BasicDoc (basicData.mk id jv rexp)) None ∈ trace w') ∧
  (store w' !! (access, TokenInfo.GetAccess info)
     = Some (TokenDoc (tokenData.mk (TokenInfo.GetAccess info) id (bson.storedTime aexp))) ∧
   store w' !! (refresh, TokenInfo.GetRefresh info)
     = Some (TokenDoc (tokenData.mk (TokenInfo.GetRefresh info) id (bson.storedTime rexp))) ∧
   store w' !! (basic, id)
     = Some (BasicDoc (basicData.mk id jv (bson.storedTime rexp)))) ∧
  ((time.unixNano T mod 1000000 = 0)%Z →
   time.unixNano (bson.storedTime aexp) = time.unixNano aexp ∧
   time.unixNano (bson.storedTime rexp) = time.unixNano rexp) ∧
  (time.unixNano (bson.storedTime aexp) <= time.unixNano aexp
   < time.unixNano (bson.storedTime aexp) + 1000000)%Z ∧
  (time.unixNano (bson.storedTime rexp) <= time.unixNano rexp
   < time.unixNano (bson.storedTime rexp) + 1000000)%Z.
Proof.
  intros Hperm Hd Hm Hcode Hr Hac Hrc Hal Hrl id basic access refresh Hfb Hfa Hfr
    w' aexp rexp.
  assert (TokenStore.expiries info = (aexp, rexp)) as Hexp.
  { subst aexp rexp.
    change (3600 * time.Second)%Z with (60 * time.Minute)%Z in *.
    change (7200 * time.Second)%Z with (120 * time.Minute)%Z in *.
    now apply expiries_whole_minutes. }
  assert (∀ c d, TokenStore.grantPayloads ts info jv id !! c = Some d →
                 store w !! (c, docID d) = None) as Hfresh.
  { intros c d [(-> & ->) | [(-> & ->) | (-> & _ & ->)]]%(grantPayloads_inv _ _ _ _ Hd);
      assumption. }
  pose proof (grantPayloads_access ts info jv id Hd) as Pa.
  pose proof (grantPayloads_refresh ts info jv id Hr) as Pr.
  pose proof (grantPayloads_basic ts info jv id Hd) as Pb.
  rewrite Hexp in Pa, Pr, Pb. cbn [fst snd] in Pa, Pr, Pb.
  split; [|split; [|split; [|split]]].
  - pose proof (Create_grant_hands_over rt ts info w jv Hperm Hm Hcode Hfresh) as Hout.
    split; [|split]; now apply Hout.
  - destruct (Create_grant_stores rt ts info w jv Hperm Hm Hcode Hfresh)
      as (_ & _ & Hin & _).
    split; [|split]; [exact (Hin _ _ Pa) | exact (Hin _ _ Pr) | exact (Hin _ _ Pb)].
  - intros Hwhole.
    assert (∀ k, (time.unixNano (time.Add T (k * time.Second)) mod 1000000 = 0)%Z)
      as Hk.
    { intros k. unfold time.Add, time.Second. cbn [time.unixNano].
      replace (time.unixNano T + k * 1000000000)%Z
        with (time.unixNano T + (k * 1000) * 1000000)%Z by ring.
      now rewrite Z.mod_add by lia. }
    assert (∀ t, (time.unixNano t mod 1000000 = 0)%Z →
                 time.unixNano (bson.storedTime t) = time.unixNano t) as Hsame.
    { intros t Ht. unfold bson.storedTime, bson.DateTime_Time.
      rewrite NewDateTimeFromTime_floor. cbn [time.unixNano].
      pose proof (Z.div_mod (time.unixNano t) 1000000 ltac:(lia)). lia. }
    split; apply Hsame, Hk.
  - apply storedTime_instant.
  - apply storedTime_instant.
Qed.

(** C7 as it was stated fails off the millisecond: for the grant created
    1999999 ns after the epoch the access row handed over expires at
    3600001999999 ns, and the database holds 3600001 ms. *)
Lemma Create_3600_7200_off_the_millisecond :
  let T := time.mkTime 1999999 0 in
  let w' := snd (TokenStore.Create sampleRuntime defaultTokenStore offMillisecondGrant
                   emptyWorld) in
  time.Add T (3600 * time.Second)%Z = time.mkTime 3600001999999 0 ∧
  store w' !! ("oauth2_access", "a")
    = Some (TokenDoc (tokenData.mk "a" "oid0" (time.mkTime 3600001000000 0))) ∧
  ¬ (store w' !! ("oauth2_access", "a")
       = Some (TokenDoc (tokenData.mk "a" "oid0" (time.Add T (3600 * time.Second)%Z))) ∧
     store w' !! ("oauth2_refresh", "r")
       = Some (TokenDoc (tokenData.mk "r" "oid0" (time.Add T (7200 * time.Second)%Z))) ∧
     store w' !! ("oauth2_basic", "oid0")
       = Some (BasicDoc (basicData.mk "oid0" [Byte.x61]
                           (time.Add T (7200 * time.Second)%Z)))).
Proof.
  cbv zeta.
  assert (store (snd (TokenStore.Create sampleRuntime defaultTokenStore
                        offMillisecondGrant emptyWorld)) !! ("oauth2_access", "a")
          = Some (TokenDoc (tokenData.mk "a" "oid0" (time.mkTime 3600001000000 0))))
    as Hrow by (vm_compute; reflexivity).
  split; [reflexivity|]. split; [exact Hrow|].
  intros (Ha & _). rewrite Hrow in Ha. discriminate Ha.
Qed.

(** What one transaction would have given: a [Create] none of whose
    inserts failed (its wrapper committed) keeps the index rows pointing
    at payloads. *)
Lemma Create_keeps_refIntegrity rt ts info w :
  rangeOrder_ok rt →
  distinctCNames (TokenStore.tcfg ts) →
  refIntegrity ts (store w) →
  fst (TokenStore.Create rt ts info w) = None →
  committed (snd (TokenStore.Create rt ts info w)) →
  refIntegrity ts (store (snd (TokenStore.Create rt ts info w))).
Proof.
  intros Hperm Hd Hinv Hnil Hcommit.
  destruct (json_Marshal rt info) as [jv [e|]] eqn:Hm.
  { now rewrite (Create_marshal_fault _ _ _ _ _ _ Hm) in Hnil. }
  destruct (decide (TokenInfo.GetCode info = "")) as [Hcode|Hcode].
  - (* a grant: the commit tells that the loop met no fault *)
    rewrite (Create_grant_run _ _ _ _ _ Hm Hcode) in Hcommit |- *.
    destruct (TokenStore.insertEach _ _ _ _) as [err w1] eqn:Hrun.
    cbn [snd] in Hcommit |- *. unfold committed in Hcommit.
    rewrite trace_concluded, last_snoc in Hcommit.
    destruct err as [e|]; [discriminate Hcommit|].
    apply insertEach_ok in Hrun as (Hkeep & Hin & Hnew).
    rewrite store_concluded. intros cn id d Hcn Hrow.
    apply Hnew in Hrow as [Hold | (c & d' & Hel & [= -> ->] & ->)].
    + destruct (Hinv cn id d Hcn Hold) as [b Hb]. exists b. now apply Hkeep.
    + apply (grantEntries_elem _ _ _ _ _ _ _ Hperm) in Hel. rewrite BasicID_stored.
      assert (tokenData.BasicID (decode_tokenData d') = ObjectIDHex rt (oidCounter w))
        as ->.
      { destruct Hd as (Hba & Hbr & Har).
        apply (grantPayloads_inv _ _ _ _ (conj Hba (conj Hbr Har))) in Hel
          as [(-> & ->) | [(-> & ->) | (-> & _ & ->)]]; try reflexivity.
        destruct Hcn as [Heq | Heq]; [now apply Hba in Heq | now apply Hbr in Heq]. }
      pose proof (grantPayloads_basic ts info jv (ObjectIDHex rt (oidCounter w)) Hd)
        as Hb.
      apply (grantEntries_elem _ _ _ _ _ _ _ Hperm), Hin in Hb. cbn in Hb.
      eexists. exact Hb.
  - (* an authorization code: the index collections are as before *)
    destruct Hd as (Hba & Hbr & Har).
    intros cn id d Hcn Hrow.
    rewrite Create_code_frame in Hrow; [|done|].
    + destruct (Hinv cn id d Hcn Hrow) as [b Hb]. exists b.
      now apply Create_code_keeps.
    + intros [= -> _]. destruct Hcn as [Heq | Heq]; [now apply Hba | now apply Hbr].
Qed.

(** C9 (the code breaks it): two [Create]s that both return [nil] lead to
    a database in which an access row names a payload that is not there.
    The second grant keeps the refresh token of the first; its access row
    is inserted, its refresh row fails on the duplicate key, its payload
    is never inserted, nothing is rolled back, and [Create] returns
    [nil]. *)
Theorem Create_nil_return_leaves_row_without_payload :
  let first := grant "a1" "r" epoch time.Hour (2 * time.Hour)%Z in
  let second := grant "a2" "r" epoch time.Hour (2 * time.Hour)%Z in
  let w1 := snd (TokenStore.Create sampleRuntime defaultTokenStore first emptyWorld) in
  let w2 := snd (TokenStore.Create sampleRuntime defaultTokenStore second w1) in
  fst (TokenStore.Create sampleRuntime defaultTokenStore first emptyWorld) = None ∧
  fst (TokenStore.Create sampleRuntime defaultTokenStore second w1) = None ∧
  reachable sampleRuntime defaultTokenStore w2 ∧
  store w2 !! ("oauth2_access", "a2")
    = Some (TokenDoc (tokenData.mk "a2" "oid1" (time.Add epoch time.Hour))) ∧
  store w2 !! ("oauth2_basic", "oid1") = None ∧
  ¬ refIntegrity defaultTokenStore (store w2).
Proof.
  cbv zeta.
  set (first := grant "a1" "r" epoch time.Hour (2 * time.Hour)%Z).
  set (second := grant "a2" "r" epoch time.Hour (2 * time.Hour)%Z).
  set (w1 := snd (TokenStore.Create sampleRuntime defaultTokenStore first emptyWorld)).
  set (w2 := snd (TokenStore.Create sampleRuntime defaultTokenStore second w1)).
  assert (fst (TokenStore.Create sampleRuntime defaultTokenStore first emptyWorld) = None)
    as Hn1 by (vm_compute; reflexivity).
  assert (fst (TokenStore.Create sampleRuntime defaultTokenStore second w1) = None)
    as Hn2 by (vm_compute; reflexivity).
  assert (store w2 !! ("oauth2_access", "a2")
          = Some (TokenDoc (tokenData.mk "a2" "oid1" (time.Add epoch time.Hour))))
    as Hrow by (vm_compute; reflexivity).
  assert (store w2 !! ("oauth2_basic", "oid1") = None) as Hgone
    by (vm_compute; reflexivity).
  split; [exact Hn1|]. split; [exact Hn2|].
  split; [apply reach_Create; [apply reach_Create; [apply reach_empty|exact Hn1]|exact Hn2]|].
  split; [exact Hrow|]. split; [exact Hgone|].
  intros Hinv.
  destruct (Hinv "oauth2_access" "a2" _ (or_introl eq_refl) Hrow) as [p Hp].
  cbn in Hp. rewrite Hgone in Hp. discriminate Hp.
Qed.

(* ===================================================================== *)
(** ** Runs of the model *)
(* ===================================================================== *)

(** A stored grant is found through either index, and both lookups read
    the same payload. *)
Example GetByAccess_and_GetByRefresh_after_Create :
  let w := snd (TokenStore.Create sampleRuntime defaultTokenStore hourGrant emptyWorld) in
  TokenInfo.GetAccess <$> fst (fst (TokenStore.GetByAccess sampleRuntime defaultTokenStore "a" w))
    = Some "a" ∧
  fst (TokenStore.GetByRefresh sampleRuntime defaultTokenStore "r" w)
    = fst (TokenStore.GetByAccess sampleRuntime defaultTokenStore "a" w).
Proof. split; vm_compute; reflexivity. Qed.

(** The loop of [Create] issues its inserts between the start and the
    commit of the transaction, none of them under it. *)
Example Create_grant_trace :
  trace (snd (TokenStore.Create sampleRuntime defaultTokenStore hourGrant emptyWorld)) =
  [EvStartTransaction;
   EvInsertOne false "oauth2_access"
     (TokenDoc (tokenData.mk "a" "oid0" (time.Add epoch time.Hour))) None;
   EvInsertOne false "oauth2_refresh"
     (TokenDoc (tokenData.mk "r" "oid0" (time.Add epoch (2 * time.Hour)%Z))) None;
   EvInsertOne false "oauth2_basic"
     (BasicDoc (basicData.mk "oid0" [Byte.x61] (time.Add epoch (2 * time.Hour)%Z))) None;
   EvCommitTransaction].
Proof. vm_compute. reflexivity. Qed.

(** The comparison of line 178 can also move an access expiry forward: an
    access token living 3630 s next to a refresh token living 7200 s gets
    the expiry of the refresh token, because 30 > 0. *)
Example expiries_moved_forward :
  TokenStore.expiries (grant "a" "r" epoch (3630 * time.Second)%Z (7200 * time.Second)%Z)
  = (time.Add epoch (7200 * time.Second)%Z, time.Add epoch (7200 * time.Second)%Z).
Proof. vm_compute. reflexivity. Qed.

(* ===================================================================== *)
(** ** Where the code parts from its specification *)
(* ===================================================================== *)

(** The two getters never report a fault and never return [nil]. *)
Lemma GetByIndex_result rt ts cname token w :
  ∃ tm,
    fst ((r <- TokenStore.getBasicID ts cname token ;;
          let '(basicID, err) := r in
          if decide (err ≠ None ∧ basicID = "") then ret (None, err)
          else d <- TokenStore.getData rt ts basicID ;; ret (Some (fst d), snd d)) w)
    = (Some tm, None).
Proof.
  unfold bind at 1. rewrite getBasicID_run. cbv zeta.
  destruct (store w !! (cname, token)) as [row|];
    (destruct (decide _) as [[Hne _]|_]; [congruence|]);
    unfold bind, ret; rewrite getData_run; cbv zeta;
    destruct (store _ !! _); eexists; reflexivity.
Qed.

(** C1 (the code breaks it): in [refreshedGrant] the access token expires
    four hours after the epoch and the refresh token three hours after it.
    [Create] stores the access row with the four-hour expiry and the
    refresh row with the three-hour expiry: the access expiry is not
    clamped, because [Time.Second()] is the second within the minute (0
    for both) and not the time in seconds. *)
Theorem Create_access_expiry_above_refresh_expiry :
  let w := snd (TokenStore.Create sampleRuntime defaultTokenStore refreshedGrant
                  emptyWorld) in
  ∃ arow rrow,
    store w !! ("oauth2_access", "a") = Some (TokenDoc arow) ∧
    store w !! ("oauth2_refresh", "r") = Some (TokenDoc rrow) ∧
    tokenData.ExpiredAt arow = time.Add epoch (4 * time.Hour)%Z ∧
    tokenData.ExpiredAt rrow = time.Add epoch (3 * time.Hour)%Z ∧
    (time.Unix (tokenData.ExpiredAt rrow) < time.Unix (tokenData.ExpiredAt arow))%Z ∧
    ¬ time.le (tokenData.ExpiredAt arow) (tokenData.ExpiredAt rrow).
Proof.
  cbv zeta. eexists _, _.
  split; [vm_compute; reflexivity|].
  split; [vm_compute; reflexivity|].
  split; [reflexivity|]. split; [reflexivity|].
  split; [reflexivity|]. unfold time.le. cbn. lia.
Qed.

(** C2 (the code breaks it): no operation hands the fault of its database
    action to the caller.  The wrappers return what [AbortTransaction]
    returns, so [Set], [GetByID], [getData] and [getBasicID] report no
    fault in any world; setting the client [alice] twice shows it: the
    second insert fails with a duplicate key, the wrapper aborts, and
    [Set] returns [nil]. *)
Theorem wrappers_drop_the_inner_fault :
  (∀ cs info w, fst (ClientStore.Set_ cs info w) = None) ∧
  (∀ cs id w, snd (fst (ClientStore.GetByID cs id w)) = None) ∧
  (∀ rt ts id w, snd (fst (TokenStore.getData rt ts id w)) = None) ∧
  (∀ ts cname token w, snd (fst (TokenStore.getBasicID ts cname token w)) = None) ∧
  (let w1 := snd (ClientStore.Set_ defaultClientStore alice emptyWorld) in
   trace (snd (ClientStore.Set_ defaultClientStore alice w1)) =
   trace w1 ++
   [EvStartTransaction;
    EvInsertOne false "oauth2_clients" (ClientDoc (entityOf alice))
      (Some (ErrDuplicateKey "oauth2_clients" "alice"));
    EvAbortTransaction]).
Proof.
  repeat split.
  - intros cs info w. rewrite Set_run. now destruct (driver.InsertOne _ _ _ _).
  - intros cs id w. rewrite GetByID_run. cbv zeta. now destruct (store w !! _).
  - intros rt ts id w. rewrite getData_run. cbv zeta. now destruct (store w !! _).
  - intros ts cname token w. rewrite getBasicID_run. cbv zeta.
    now destruct (store w !! _).
Qed.

(** C3 (the code breaks it): [GetByAccess] and [GetByRefresh] return a
    token and no fault in every world, so neither a missing index row nor
    a missing payload gives [NotFound].  On the empty database
    [GetByAccess] of an unknown token resolves the empty id without a
    fault, does not skip the second step (it looks up the payload keyed by
    the empty string) and returns the zero token. *)
Theorem GetByAccess_miss_is_not_NotFound :
  (∀ rt ts token w, ∃ tm, fst (TokenStore.GetByAccess rt ts token w) = (Some tm, None)) ∧
  (∀ rt ts token w, ∃ tm, fst (TokenStore.GetByRefresh rt ts token w) = (Some tm, None)) ∧
  TokenStore.GetByAccess sampleRuntime defaultTokenStore "nope" emptyWorld =
  ((Some TokenInfo.zero, None),
   mkWorld ∅ None
     [EvStartTransaction; EvFindOne false "oauth2_access" "nope"; EvAbortTransaction;
      EvStartTransaction; EvFindOne false "oauth2_basic" ""; EvAbortTransaction]
     0 0).
Proof.
  split; [|split].
  - intros. apply GetByIndex_result.
  - intros. apply GetByIndex_result.
  - vm_compute. reflexivity.
Qed.

(** C5 (the code breaks it): refreshing a grant keeps its refresh token.
    After a first grant with refresh token [r], [Create] of a second grant
    with a new access token and the same [r] inserts the access row, fails
    on the refresh row, and aborts a transaction none of the inserts was
    part of: the new access row stays, with no payload behind it. *)
Theorem Create_failed_grant_leaves_rows :
  let first := grant "a1" "r" epoch time.Hour (2 * time.Hour)%Z in
  let second := grant "a2" "r" epoch time.Hour (2 * time.Hour)%Z in
  let w1 := snd (TokenStore.Create sampleRuntime defaultTokenStore first emptyWorld) in
  let w2 := snd (TokenStore.Create sampleRuntime defaultTokenStore second w1) in
  let arow := TokenDoc (tokenData.mk "a2" "oid1" (time.Add epoch time.Hour)) in
  let rrow := TokenDoc (tokenData.mk "r" "oid1" (time.Add epoch (2 * time.Hour)%Z)) in
  trace w2 = trace w1 ++
    [EvStartTransaction;
     EvInsertOne false "oauth2_access" arow None;
     EvInsertOne false "oauth2_refresh" rrow
       (Some (ErrDuplicateKey "oauth2_refresh" "r"));
     EvAbortTransaction] ∧
  store w1 !! ("oauth2_access", "a2") = None ∧
  store w2 !! ("oauth2_access", "a2") = Some arow ∧
  store w2 !! ("oauth2_basic", "oid1") = None ∧
  store w2 ≠ store w1 ∧
  fst (TokenStore.Create sampleRuntime defaultTokenStore second w1) = None.
Proof.
  cbv zeta.
  assert (∀ (db1 db2 : Database) k v,
            db1 !! k = None → db2 !! k = Some v → db2 ≠ db1) as Hdiff.
  { intros db1 db2 k v H1 H2 ->. congruence. }
  split; [vm_compute; reflexivity|].
  split; [vm_compute; reflexivity|].
  split; [vm_compute; reflexivity|].
  split; [vm_compute; reflexivity|].
  split; [|vm_compute; reflexivity].
  eapply (Hdiff _ _ ("oauth2_access", "a2")); vm_compute; reflexivity.
Qed.

(** C6 (the code breaks it): after [RemoveByID], [GetByID] of the same id
    returns no record and no fault, in every world; the [ErrNoDocuments]
    of the lookup is lost in the wrapper. *)
Theorem GetByID_after_RemoveByID_is_not_NotFound cs id w :
  fst (ClientStore.GetByID cs id (snd (ClientStore.RemoveByID cs id w)))
  = (None, None).
Proof.
  rewrite RemoveByID_run, GetByID_run. cbv zeta. cbn [snd].
  rewrite store_concluded. cbn [store driver.logEv driver.withStore].
  now rewrite lookup_delete_eq.
Qed.

(* ===================================================================== *)
(** ** The theorems at concrete inputs *)
(* ===================================================================== *)

Lemma Create_code_inserts_one_basic_payload_witness :
  distinctCNames (TokenStore.tcfg defaultTokenStore) ∧
  json_Marshal sampleRuntime codeGrant = ([Byte.x61], None) ∧
  TokenInfo.GetCode codeGrant ≠ "" ∧
  let payload :=
    BasicDoc (basicData.mk "c0de" [Byte.x61] (time.Add epoch (10 * time.Minute)%Z)) in
  let w' := snd (TokenStore.Create sampleRuntime defaultTokenStore codeGrant emptyWorld) in
  (∃ r fin, trace w' =
            [] ++ [EvStartTransaction; EvInsertOne false "oauth2_basic" payload r; fin]) ∧
  ((∅ : Database) !! ("oauth2_basic", "c0de") = None →
   store w' = <[("oauth2_basic", "c0de") := payload]> ∅) ∧
  (∀ id, store w' !! ("oauth2_access", id) = (∅ : Database) !! ("oauth2_access", id)) ∧
  (∀ id, store w' !! ("oauth2_refresh", id) = (∅ : Database) !! ("oauth2_refresh", id)).
Proof.
  assert (distinctCNames (TokenStore.tcfg defaultTokenStore)) as Hd
    by (repeat split; discriminate).
  assert (json_Marshal sampleRuntime codeGrant = ([Byte.x61], None)) as Hm
    by reflexivity.
  assert (TokenInfo.GetCode codeGrant ≠ "") as Hcode by discriminate.
  split; [exact Hd|]. split; [exact Hm|]. split; [exact Hcode|].
  exact (Create_code_inserts_one_basic_payload sampleRuntime defaultTokenStore
           codeGrant emptyWorld [Byte.x61] Hd Hm Hcode).
Defined.

Lemma Create_code_never_indexes_tokens_witness :
  distinctCNames (TokenStore.tcfg defaultTokenStore) ∧
  TokenInfo.GetCode codeGrant ≠ "" ∧
  let w' := snd (TokenStore.Create sampleRuntime defaultTokenStore codeGrant emptyWorld) in
  (∀ id, store w' !! ("oauth2_access", id) = (∅ : Database) !! ("oauth2_access", id)) ∧
  (∀ id, store w' !! ("oauth2_refresh", id) = (∅ : Database) !! ("oauth2_refresh", id)) ∧
  ((∅ : Database) !! ("oauth2_access", "a") = None →
   store w' !! ("oauth2_access", "a") = None ∧
   fst (TokenStore.GetByAccess sampleRuntime defaultTokenStore "a" w')
   = fst (TokenStore.GetByAccess sampleRuntime defaultTokenStore "a" emptyWorld)) ∧
  ((∅ : Database) !! ("oauth2_refresh", "r") = None →
   store w' !! ("oauth2_refresh", "r") = None ∧
   fst (TokenStore.GetByRefresh sampleRuntime defaultTokenStore "r" w')
   = fst (TokenStore.GetByRefresh sampleRuntime defaultTokenStore "r" emptyWorld)).
Proof.
  assert (distinctCNames (TokenStore.tcfg defaultTokenStore)) as Hd
    by (repeat split; discriminate).
  assert (TokenInfo.GetCode codeGrant ≠ "") as Hcode by discriminate.
  split; [exact Hd|]. split; [exact Hcode|].
  exact (Create_code_never_indexes_tokens sampleRuntime defaultTokenStore
           codeGrant emptyWorld Hd Hcode).
Defined.

Lemma Create_3600_7200_witness :
  rangeOrder_ok sampleRuntime ∧
  distinctCNames (TokenStore.tcfg defaultTokenStore) ∧
  json_Marshal sampleRuntime hourGrant = ([Byte.x61], None) ∧
  TokenInfo.GetCode hourGrant = "" ∧
  TokenInfo.GetRefresh hourGrant ≠ "" ∧
  TokenInfo.GetAccessCreateAt hourGrant = epoch ∧
  TokenInfo.GetRefreshCreateAt hourGrant = epoch ∧
  TokenInfo.GetAccessExpiresIn hourGrant = (3600 * time.Second)%Z ∧
  TokenInfo.GetRefreshExpiresIn hourGrant = (7200 * time.Second)%Z ∧
  store emptyWorld !! ("oauth2_basic", "oid0") = None ∧
  store emptyWorld !! ("oauth2_access", "a") = None ∧
  store emptyWorld !! ("oauth2_refresh", "r") = None ∧
  let w' := snd (TokenStore.Create sampleRuntime defaultTokenStore hourGrant emptyWorld) in
  let aexp := time.Add epoch (3600 * time.Second)%Z in
  let rexp := time.Add epoch (7200 * time.Second)%Z in
  (EvInsertOne false "oauth2_access" (TokenDoc (tokenData.mk "a" "oid0" aexp)) None
     ∈ trace w' ∧
   EvInsertOne false "oauth2_refresh" (TokenDoc (tokenData.mk "r" "oid0" rexp)) None
     ∈ trace w' ∧
   EvInsertOne false "oauth2_basic" (BasicDoc (basicData.mk "oid0" [Byte.x61] rexp)) None
     ∈ trace w') ∧
  (store w' !! ("oauth2_access", "a")
     = Some (TokenDoc (tokenData.mk "a" "oid0" (bson.storedTime aexp))) ∧
   store w' !! ("oauth2_refresh", "r")
     = Some (TokenDoc (tokenData.mk "r" "oid0" (bson.storedTime rexp))) ∧
   store w' !! ("oauth2_basic", "oid0")
     = Some (BasicDoc (basicData.mk "oid0" [Byte.x61] (bson.storedTime rexp)))) ∧
  ((time.unixNano epoch mod 1000000 = 0)%Z →
   time.unixNano (bson.storedTime aexp) = time.unixNano aexp ∧
   time.unixNano (bson.storedTime rexp) = time.unixNano rexp) ∧
  (time.unixNano (bson.storedTime aexp) <= time.unixNano aexp
   < time.unixNano (bson.storedTime aexp) + 1000000)%Z ∧
  (time.unixNano (bson.storedTime rexp) <= time.unixNano rexp
   < time.unixNano (bson.storedTime rexp) + 1000000)%Z.
Proof.
  assert (rangeOrder_ok sampleRuntime) as Hperm by (intros n l; reflexivity).
  assert (distinctCNames (TokenStore.tcfg defaultTokenStore)) as Hd
    by (repeat split; discriminate).
  assert (TokenInfo.GetRefresh hourGrant ≠ "") as Hr by discriminate.
  do 12 (split; [first [exact Hperm | exact Hd | exact Hr | reflexivity]|]).
  exact (Create_3600_7200 sampleRuntime defaultTokenStore hourGrant emptyWorld
           [Byte.x61] epoch Hperm Hd eq_refl eq_refl Hr eq_refl eq_refl eq_refl eq_refl
           eq_refl eq_refl eq_refl).
Defined.

Lemma RemoveByAccess_no_cascade_witness :
  distinctCNames (TokenStore.tcfg defaultTokenStore) ∧
  let w := snd (TokenStore.Create sampleRuntime defaultTokenStore hourGrant emptyWorld) in
  let w' := snd (TokenStore.RemoveByAccess defaultTokenStore "a" w) in
  store w' = delete ("oauth2_access", "a") (store w) ∧
  store w' !! ("oauth2_access", "a") = None ∧
  (∀ id, store w' !! ("oauth2_refresh", id) = store w !! ("oauth2_refresh", id)) ∧
  (∀ id, store w' !! ("oauth2_basic", id) = store w !! ("oauth2_basic", id)) ∧
  (∀ id, id ≠ "a" →
         store w' !! ("oauth2_access", id) = store w !! ("oauth2_access", id)).
Proof.
  assert (distinctCNames (TokenStore.tcfg defaultTokenStore)) as Hd
    by (repeat split; discriminate).
  split; [exact Hd|].
  exact (RemoveByAccess_no_cascade defaultTokenStore "a"
           (snd (TokenStore.Create sampleRuntime defaultTokenStore hourGrant emptyWorld))
           Hd).
Defined.



(* ===================================================================== *)
(** ** Further properties of the client store *)
(* ===================================================================== *)

Lemma Set_store cs info w :
  store (snd (ClientStore.Set_ cs info w)) =
  let k := (ClientsCName (ClientStore.ccfg cs), ClientInfo.GetID info) in
  match store w !! k with
  | Some _ => store w
  | None => <[k := ClientDoc (entityOf info)]> (store w)
  end.
Proof.
  rewrite Set_run, InsertOne_bg. cbn [docID entityOf client.ID]. rewrite store_begun.
  cbv zeta. now destruct (store w !! _).
Qed.

Lemma GetByID_fst cs id w :
  fst (ClientStore.GetByID cs id w) =
  (infoOf ∘ decode_client <$> store w !! (ClientsCName (ClientStore.ccfg cs), id), None).
Proof. rewrite GetByID_run. cbv zeta. now destruct (store w !! _). Qed.

Lemma GetByID_store cs id w : store (snd (ClientStore.GetByID cs id w)) = store w.
Proof. rewrite GetByID_run. cbv zeta. now destruct (store w !! _). Qed.

Lemma RemoveByID_store cs id w :
  store (snd (ClientStore.RemoveByID cs id w))
  = delete (ClientsCName (ClientStore.ccfg cs), id) (store w).
Proof. now rewrite RemoveByID_run. Qed.

(** X1: a client set under a free id is read back with the same id,
    secret, domain and user id, and what [GetByID] answers for any other
    id is what it answered before the [Set]. *)
Theorem Set_GetByID_round_trip cs info w :
  store w !! (ClientsCName (ClientStore.ccfg cs), ClientInfo.GetID info) = None →
  let w' := snd (ClientStore.Set_ cs info w) in
  fst (ClientStore.Set_ cs info w) = None ∧
  fst (ClientStore.GetByID cs (ClientInfo.GetID info) w') = (Some info, None) ∧
  (∀ id, id ≠ ClientInfo.GetID info →
         fst (ClientStore.GetByID cs id w') = fst (ClientStore.GetByID cs id w)).
Proof.
  intros Hfresh w'. split; [|split].
  - rewrite Set_run. now destruct (driver.InsertOne _ _ _ _).
  - now apply Set_then_GetByID.
  - intros id Hne. subst w'. rewrite !GetByID_fst, Set_store. cbv zeta.
    rewrite Hfresh, lookup_insert_ne; [done|]. intros [= Heq]. now apply Hne.
Qed.

(** X2: [Set] is an insert, not an upsert: for an id that is taken the
    database stays as it is, the stored client keeps its fields, and [Set]
    still returns [nil]. *)
Theorem Set_taken_id_changes_nothing cs info w d :
  store w !! (ClientsCName (ClientStore.ccfg cs), ClientInfo.GetID info) = Some d →
  let w' := snd (ClientStore.Set_ cs info w) in
  fst (ClientStore.Set_ cs info w) = None ∧
  store w' = store w ∧
  fst (ClientStore.GetByID cs (ClientInfo.GetID info) w')
  = (Some (infoOf (decode_client d)), None).
Proof.
  intros Htaken w'.
  assert (store w' = store w) as Hst.
  { subst w'. rewrite Set_store. cbv zeta. now rewrite Htaken. }
  split; [|split; [exact Hst|]].
  - rewrite Set_run. now destruct (driver.InsertOne _ _ _ _).
  - rewrite GetByID_fst, Hst, Htaken. reflexivity.
Qed.

(** X3: [RemoveByID] deletes the client with that id and no other
    document; for an id that is not stored it changes nothing; it returns
    [nil] either way, and removing twice is removing once. *)
Theorem RemoveByID_effect cs id w :
  let w' := snd (ClientStore.RemoveByID cs id w) in
  fst (ClientStore.RemoveByID cs id w) = None ∧
  store w' !! (ClientsCName (ClientStore.ccfg cs), id) = None ∧
  (∀ k, k ≠ (ClientsCName (ClientStore.ccfg cs), id) → store w' !! k = store w !! k) ∧
  (store w !! (ClientsCName (ClientStore.ccfg cs), id) = None → store w' = store w) ∧
  store (snd (ClientStore.RemoveByID cs id w')) = store w'.
Proof.
  cbv zeta. rewrite !RemoveByID_store. split; [|split; [|split; [|split]]].
  - now rewrite RemoveByID_run.
  - apply lookup_delete_eq.
  - intros k Hne. now apply lookup_delete_ne.
  - apply delete_id.
  - apply delete_delete_eq.
Qed.

(** X4: setting a client under a free id and removing it again gives back
    the database there was. *)
Theorem Set_then_RemoveByID_restores cs info w :
  store w !! (ClientsCName (ClientStore.ccfg cs), ClientInfo.GetID info) = None →
  store (snd (ClientStore.RemoveByID cs (ClientInfo.GetID info)
                (snd (ClientStore.Set_ cs info w)))) = store w.
Proof.
  intros Hfresh. rewrite RemoveByID_store, Set_store. cbv zeta.
  rewrite Hfresh, delete_insert_eq. now apply delete_id.
Qed.

(** X5: [GetByID] of a stored client returns its four fields as they are
    stored, with no fault, and leaves the database as it is, whether it
    finds the client or not. *)
Theorem GetByID_reads_the_stored_client cs id w :
  store (snd (ClientStore.GetByID cs id w)) = store w ∧
  (∀ c, store w !! (ClientsCName (ClientStore.ccfg cs), id) = Some (ClientDoc c) →
        fst (ClientStore.GetByID cs id w)
        = (Some (ClientInfo.mk (client.ID c) (client.Secret c)
                               (client.Domain c) (client.UserID c)), None)).
Proof.
  split; [apply GetByID_store|].
  intros c Hc. now rewrite GetByID_fst, Hc.
Qed.

(* ===================================================================== *)
(** ** Further properties of the token store: what is stored *)
(* ===================================================================== *)

Lemma RemoveByCode_store ts code w :
  store (snd (TokenStore.RemoveByCode ts code w))
  = delete (BasicCName (TokenStore.tcfg ts), code) (store w).
Proof.
  unfold TokenStore.RemoveByCode, bind at 1.
  rewrite TokenStore_colHandler_run by keeps.
  unfold bind. rewrite DeleteOne_bg. reflexivity.
Qed.

Lemma RemoveByAccess_store ts access w :
  store (snd (TokenStore.RemoveByAccess ts access w))
  = delete (AccessCName (TokenStore.tcfg ts), access) (store w).
Proof. now rewrite RemoveByAccess_run. Qed.

Lemma RemoveByRefresh_store ts refresh w :
  store (snd (TokenStore.RemoveByRefresh ts refresh w))
  = delete (RefreshCName (TokenStore.tcfg ts), refresh) (store w).
Proof.
  unfold TokenStore.RemoveByRefresh, bind at 1.
  rewrite TokenStore_colHandler_run by keeps.
  unfold bind. rewrite DeleteOne_bg. reflexivity.
Qed.

Lemma getData_store rt ts basicID w :
  store (snd (TokenStore.getData rt ts basicID w)) = store w.
Proof. rewrite getData_run. cbv zeta. now destruct (store w !! _). Qed.

Lemma getBasicID_store ts cname token w :
  store (snd (TokenStore.getBasicID ts cname token w)) = store w.
Proof. rewrite getBasicID_run. cbv zeta. now destruct (store w !! _). Qed.

Lemma getBasicID_fst ts cname token w :
  fst (TokenStore.getBasicID ts cname token w) = (indexedID (store w) cname token, None).
Proof.
  rewrite getBasicID_run. unfold indexedID. cbv zeta. now destruct (store w !! _).
Qed.

(** The body shared by [GetByAccess] and [GetByRefresh]: the payload
    lookup always runs, on the id the index lookup produced. *)
Lemma GetByIndex_run rt ts cname token w :
  (r <- TokenStore.getBasicID ts cname token ;;
   let '(basicID, err) := r in
   if decide (err ≠ None ∧ basicID = "") then ret (None, err)
   else d <- TokenStore.getData rt ts basicID ;; ret (Some (fst d), snd d)) w
  = let '(d, w') :=
      TokenStore.getData rt ts (indexedID (store w) cname token)
        (snd (TokenStore.getBasicID ts cname token w)) in
    ((Some (fst d), snd d), w').
Proof.
  unfold bind at 1.
  pose proof (getBasicID_fst ts cname token w) as Hfst.
  destruct (TokenStore.getBasicID ts cname token w) as [[basicID err] w1].
  cbn in Hfst. injection Hfst as -> ->. cbn [snd].
  destruct (decide _) as [[Hne _]|_]; [congruence|]. reflexivity.
Qed.

Lemma GetByIndex_fst rt ts cname token w :
  fst ((r <- TokenStore.getBasicID ts cname token ;;
        let '(basicID, err) := r in
        if decide (err ≠ None ∧ basicID = "") then ret (None, err)
        else d <- TokenStore.getData rt ts basicID ;; ret (Some (fst d), snd d)) w)
  = (Some (fst (fst (TokenStore.getData rt ts (indexedID (store w) cname token) w))),
     None).
Proof.
  rewrite GetByIndex_run.
  pose proof (getBasicID_store ts cname token w) as Hst.
  destruct (TokenStore.getBasicID ts cname token w) as [r w1]. cbn in Hst |- *.
  rewrite !getData_run. cbv zeta. rewrite Hst.
  now destruct (store w !! (BasicCName (TokenStore.tcfg ts), _)).
Qed.

Lemma GetByIndex_store rt ts cname token w :
  store (snd ((r <- TokenStore.getBasicID ts cname token ;;
               let '(basicID, err) := r in
               if decide (err ≠ None ∧ basicID = "") then ret (None, err)
               else d <- TokenStore.getData rt ts basicID ;; ret (Some (fst d), snd d)) w))
  = store w.
Proof.
  rewrite GetByIndex_run.
  pose proof (getBasicID_store ts cname token w) as Hst.
  destruct (TokenStore.getBasicID ts cname token w) as [r w1]. cbn in Hst |- *.
  pose proof (getData_store rt ts (indexedID (store w) cname token) w1) as Hd.
  destruct (TokenStore.getData rt ts _ w1) as [d w2]. cbn in Hd |- *. congruence.
Qed.

Lemma GetByAccess_fst rt ts access w :
  fst (TokenStore.GetByAccess rt ts access w)
  = (Some (fst (fst (TokenStore.getData rt ts
                       (indexedID (store w) (AccessCName (TokenStore.tcfg ts)) access) w))),
     None).
Proof. apply GetByIndex_fst. Qed.

Lemma GetByRefresh_fst rt ts refresh w :
  fst (TokenStore.GetByRefresh rt ts refresh w)
  = (Some (fst (fst (TokenStore.getData rt ts
                       (indexedID (store w) (RefreshCName (TokenStore.tcfg ts)) refresh) w))),
     None).
Proof. apply GetByIndex_fst. Qed.

(** What a getter answers is read off the database alone. *)
Lemma getData_fst_ext rt ts id w1 w2 :
  store w1 !! (BasicCName (TokenStore.tcfg ts), id)
  = store w2 !! (BasicCName (TokenStore.tcfg ts), id) →
  fst (TokenStore.getData rt ts id w1) = fst (TokenStore.getData rt ts id w2).
Proof. intros Heq. now rewrite !getData_result, Heq. Qed.

(** The loop of [Create], whether it ends with a fault or not: it removes
    and overwrites nothing, ... *)
Lemma insertEach_mono ts l : ∀ w k v,
  store w !! k = Some v →
  store (snd (TokenStore.insertEach ts CtxBackground l w)) !! k = Some v.
Proof.
  induction l as [|[c d] rest IH]; intros w k v Hk; [exact Hk|].
  cbn [TokenStore.insertEach]. unfold bind, TokenStore.col. rewrite InsertOne_bg.
  destruct (store w !! (c, docID d)) eqn:Hc; [exact Hk|].
  apply IH. cbn. rewrite lookup_insert_ne; [done|]. intros <-. congruence.
Qed.

(** ... touches no key but those of its entries, ... *)
Lemma insertEach_frame ts l : ∀ w k,
  (∀ c d, (c, d) ∈ l → (c, docID d) ≠ k) →
  store (snd (TokenStore.insertEach ts CtxBackground l w)) !! k = store w !! k.
Proof.
  induction l as [|[c d] rest IH]; intros w k Hk; [reflexivity|].
  cbn [TokenStore.insertEach]. unfold bind, TokenStore.col. rewrite InsertOne_bg.
  destruct (store w !! (c, docID d)) eqn:Hc; [reflexivity|].
  rewrite IH by (intros c' d' Hin; apply Hk; now right).
  cbn. apply lookup_insert_ne, Hk. now left.
Qed.

(** ... and calls the driver outside the transaction only. *)
Lemma insertEach_outside ts l : ∀ w,
  ranOutsideTxn w (snd (TokenStore.insertEach ts CtxBackground l w)).
Proof.
  induction l as [|[c d] rest IH]; intros w.
  - exists []. split; [now rewrite app_nil_r | reflexivity].
  - cbn [TokenStore.insertEach]. unfold bind, TokenStore.col. rewrite InsertOne_bg.
    destruct (store w !! (c, docID d)) eqn:Hc.
    + eexists [_]. split; reflexivity.
    + destruct (IH (driver.logEv (EvInsertOne false c d None)
                      (driver.withStore (<[(c, docID d) := bson.stored d]> (store w)) w)))
        as (evs & Htr & Hall).
      exists (EvInsertOne false c d None :: evs). split.
      * rewrite Htr. cbn. now rewrite <- app_assoc.
      * exact Hall.
Qed.

Lemma Create_code_store rt ts info w jv :
  json_Marshal rt info = (jv, None) →
  TokenInfo.GetCode info ≠ "" →
  store (snd (TokenStore.Create rt ts info w)) =
  let k := (BasicCName (TokenStore.tcfg ts), TokenInfo.GetCode info) in
  match store w !! k with
  | Some _ => store w
  | None => <[k := bson.stored (codeDoc info jv)]> (store w)
  end.
Proof.
  intros Hm Hcode. rewrite (Create_code_run _ _ _ _ _ Hm Hcode), InsertOne_bg.
  cbn [docID codeDoc basicData.ID]. rewrite store_begun. cbv zeta.
  now destruct (store w !! _).
Qed.

(** X6: the fault [Create] returns is the fault of [json.Marshal], and no
    other: with a serialization fault nothing at all happens (no driver
    call, no ObjectID drawn); without one [Create] returns [nil], whatever
    the inserts did. *)
Theorem Create_returns_the_marshal_fault_only rt ts info w :
  fst (TokenStore.Create rt ts info w) = snd (json_Marshal rt info) ∧
  (is_Some (snd (json_Marshal rt info)) → snd (TokenStore.Create rt ts info w) = w).
Proof.
  destruct (json_Marshal rt info) as [jv [e|]] eqn:Hm; cbn [snd].
  - rewrite (Create_marshal_fault _ _ _ _ _ _ Hm). split; [reflexivity|done].
  - split; [|intros [? [=]]].
    destruct (decide (TokenInfo.GetCode info = "")) as [Hcode|Hcode].
    + rewrite (Create_grant_run _ _ _ _ _ Hm Hcode).
      now destruct (TokenStore.insertEach _ _ _ _).
    + rewrite (Create_code_run _ _ _ _ _ Hm Hcode).
      now destruct (driver.InsertOne _ _ _ _).
Qed.

(** X7: [Create] never removes and never overwrites a stored document, in
    either branch, whatever the order of the inserts and whichever of
    them fails. *)
Theorem Create_keeps_every_document rt ts info w k v :
  store w !! k = Some v →
  store (snd (TokenStore.Create rt ts info w)) !! k = Some v.
Proof.
  intros Hk.
  destruct (json_Marshal rt info) as [jv [e|]] eqn:Hm.
  { now rewrite (Create_marshal_fault _ _ _ _ _ _ Hm). }
  destruct (decide (TokenInfo.GetCode info = "")) as [Hcode|Hcode].
  - rewrite (Create_grant_run _ _ _ _ _ Hm Hcode).
    pose proof (insertEach_mono ts (grantEntries rt ts info jv w)
                  (afterRange (begun (afterOID w))) k v Hk) as Hmono.
    now destruct (TokenStore.insertEach _ _ _ _).
  - now apply Create_code_keeps.
Qed.

(** The collections a grant writes to are the three of the configuration. *)
Lemma grantPayloads_names ts info jv id cn d :
  TokenStore.grantPayloads ts info jv id !! cn = Some d →
  cn = BasicCName (TokenStore.tcfg ts) ∨ cn = AccessCName (TokenStore.tcfg ts) ∨
  cn = RefreshCName (TokenStore.tcfg ts).
Proof.
  unfold TokenStore.grantPayloads.
  destruct (decide (TokenInfo.GetRefresh info ≠ ""));
    rewrite ?lookup_insert_Some, lookup_empty; intuition (subst; auto; discriminate).
Qed.

(** A grant whose keys are free: the loop meets no fault, and afterwards
    the database holds what it held, the grant's documents, and nothing
    else. *)
Lemma Create_grant_stores_exactly rt ts info w jv :
  rangeOrder_ok rt →
  json_Marshal rt info = (jv, None) →
  TokenInfo.GetCode info = "" →
  let payloads := TokenStore.grantPayloads ts info jv (ObjectIDHex rt (oidCounter w)) in
  (∀ c d, payloads !! c = Some d → store w !! (c, docID d) = None) →
  let w' := snd (TokenStore.Create rt ts info w) in
  ∀ k v, store w' !! k = Some v ↔
         store w !! k = Some v ∨
         ∃ c d, payloads !! c = Some d ∧ k = (c, docID d) ∧ v = bson.stored d.
Proof.
  intros Hperm Hm Hcode payloads Hfresh w'. subst w'.
  rewrite (Create_grant_run _ _ _ _ _ Hm Hcode).
  assert (fst (TokenStore.insertEach ts CtxBackground (grantEntries rt ts info jv w)
                 (afterRange (begun (afterOID w)))) = None) as Hnone.
  { apply insertEach_fresh; [now apply grantEntries_NoDup|].
    intros c d Hin. apply Hfresh. now apply grantEntries_elem in Hin. }
  destruct (TokenStore.insertEach _ _ _ _) as [err w1] eqn:Hrun.
  cbn in Hnone. subst err.
  apply insertEach_ok in Hrun as (Hkeep & Hin & Hnew).
  cbn [snd]. rewrite store_concluded. intros k v. split.
  - intros [Hold | (c & d & Hel & -> & ->)]%Hnew; [now left|].
    right. exists c, d. split; [|done]. now apply grantEntries_elem in Hel.
  - intros [Hold | (c & d & Hel & -> & ->)]; [now apply Hkeep|].
    apply Hin. now apply grantEntries_elem.
Qed.

(** Walks down the cases of a lookup in a chain of inserts. *)
Ltac insert_chain :=
  repeat first [ left; split; reflexivity | right; split; [done|] ]; try done.

(** X8: a grant whose keys are free adds exactly its documents, in
    whatever order the loop visits them: the basic payload under the new
    ObjectID (expiring with the refresh token, or with the access token
    when there is no refresh token), the access row, and the refresh row
    only when the refresh token is not empty; each kept as BSON keeps it,
    its expiry a datetime in milliseconds. *)
Theorem Create_grant_adds_exactly_its_documents rt ts info w jv :
  rangeOrder_ok rt →
  distinctCNames (TokenStore.tcfg ts) →
  json_Marshal rt info = (jv, None) →
  TokenInfo.GetCode info = "" →
  let id := ObjectIDHex rt (oidCounter w) in
  let aexp := fst (TokenStore.expiries info) in
  let rexp := snd (TokenStore.expiries info) in
  let basicKey := (BasicCName (TokenStore.tcfg ts), id) in
  let accessKey := (AccessCName (TokenStore.tcfg ts), TokenInfo.GetAccess info) in
  let refreshKey := (RefreshCName (TokenStore.tcfg ts), TokenInfo.GetRefresh info) in
  store w !! basicKey = None →
  store w !! accessKey = None →
  (TokenInfo.GetRefresh info ≠ "" → store w !! refreshKey = None) →
  store (snd (TokenStore.Create rt ts info w)) =
  let base :=
    <[accessKey :=
        TokenDoc (tokenData.mk (TokenInfo.GetAccess info) id (bson.storedTime aexp))]>
      (<[basicKey := BasicDoc (basicData.mk id jv (bson.storedTime rexp))]> (store w)) in
  if decide (TokenInfo.GetRefresh info ≠ "")
  then <[refreshKey :=
           TokenDoc (tokenData.mk (TokenInfo.GetRefresh info) id (bson.storedTime rexp))]>
         base
  else base.
Proof.
  intros Hperm Hd Hm Hcode id aexp rexp basicKey accessKey refreshKey Hfb Hfa Hfr.
  pose proof (Create_grant_stores_exactly rt ts info w jv Hperm Hm Hcode) as Hex.
  cbv zeta in Hex. fold id in Hex.
  assert (∀ c d, TokenStore.grantPayloads ts info jv id !! c = Some d →
                 store w !! (c, docID d) = None) as Hfresh.
  { intros c d [(-> & ->) | [(-> & ->) | (-> & Hr & ->)]]%(grantPayloads_inv _ _ _ _ Hd);
      cbn [docID basicData.ID tokenData.ID]; auto. }
  specialize (Hex Hfresh).
  pose proof (grantPayloads_basic ts info jv id Hd) as Pb.
  pose proof (grantPayloads_access ts info jv id Hd) as Pa.
  destruct Hd as (Hba & Hbr & Har).
  assert (basicKey ≠ accessKey) as Kba by (intros [= Heq _]; now apply Hba).
  apply map_eq. intros k. apply option_eq. intros v. rewrite Hex. clear Hex.
  destruct (decide (TokenInfo.GetRefresh info ≠ "")) as [Hr|Hr].
  - pose proof (grantPayloads_refresh ts info jv id Hr) as Pr.
    specialize (Hfr Hr).
    assert (basicKey ≠ refreshKey) as Kbr by (intros [= Heq _]; now apply Hbr).
    assert (accessKey ≠ refreshKey) as Kar by (intros [= Heq _]; now apply Har).
    rewrite !lookup_insert_Some. split.
    + intros [Hold | (c & d & Hel & -> & ->)].
      * assert (refreshKey ≠ k ∧ accessKey ≠ k ∧ basicKey ≠ k) as (? & ? & ?)
          by (repeat split; intros <-; congruence).
        insert_chain.
      * apply (grantPayloads_inv _ _ _ _ (conj Hba (conj Hbr Har))) in Hel
          as [(-> & ->) | [(-> & ->) | (-> & _ & ->)]];
          cbn [docID basicData.ID tokenData.ID]; fold basicKey accessKey refreshKey;
          insert_chain.
    + intros [[<- <-] | [Hne [[<- <-] | [Hne' [[<- <-] | [Hne'' Hold]]]]]];
        [right; eexists _, _; split; [exact Pr|done]
        |right; eexists _, _; split; [exact Pa|done]
        |right; eexists _, _; split; [exact Pb|done]
        |now left].
  - rewrite !lookup_insert_Some. split.
    + intros [Hold | (c & d & Hel & -> & ->)].
      * assert (accessKey ≠ k ∧ basicKey ≠ k) as (? & ?)
          by (repeat split; intros <-; congruence).
        insert_chain.
      * apply (grantPayloads_inv _ _ _ _ (conj Hba (conj Hbr Har))) in Hel
          as [(-> & ->) | [(-> & ->) | (-> & ? & ->)]];
          cbn [docID basicData.ID tokenData.ID]; fold basicKey accessKey;
          insert_chain.
    + intros [[<- <-] | [Hne [[<- <-] | [Hne' Hold]]]];
        [right; eexists _, _; split; [exact Pa|done]
        |right; eexists _, _; split; [exact Pb|done]
        |now left].
Qed.

(* ===================================================================== *)
(** ** Further properties of the token store: reading back *)
(* ===================================================================== *)

(** X9: after [Create] of a code, [GetByCode] of that code returns what
    [json.Unmarshal] makes of the bytes [json.Marshal] produced, with no
    fault, when the code was free; when it was taken, it returns what it
    returned before: the older payload is not replaced. *)
Theorem Create_code_then_GetByCode rt ts info w jv :
  json_Marshal rt info = (jv, None) →
  TokenInfo.GetCode info ≠ "" →
  let code := TokenInfo.GetCode info in
  let w' := snd (TokenStore.Create rt ts info w) in
  fst (TokenStore.GetByCode rt ts code w') =
  match store w !! (BasicCName (TokenStore.tcfg ts), code) with
  | None => (fst (json_Unmarshal rt jv TokenInfo.zero), None)
  | Some _ => fst (TokenStore.GetByCode rt ts code w)
  end.
Proof.
  intros Hm Hcode code w'. unfold TokenStore.GetByCode.
  rewrite !getData_result. subst w'. rewrite (Create_code_store _ _ _ _ _ Hm Hcode).
  cbv zeta. fold code.
  destruct (store w !! (BasicCName (TokenStore.tcfg ts), code)) eqn:Hl.
  - now rewrite Hl.
  - now rewrite lookup_insert_eq.
Qed.

(** X10: after [Create] of a grant with both tokens whose keys were free,
    [GetByAccess] of the access token and [GetByRefresh] of the refresh
    token return the same thing: what [json.Unmarshal] makes of the bytes
    [json.Marshal] produced, with no fault. *)
Theorem Create_grant_then_GetByAccess_GetByRefresh rt ts info w jv :
  rangeOrder_ok rt →
  distinctCNames (TokenStore.tcfg ts) →
  json_Marshal rt info = (jv, None) →
  TokenInfo.GetCode info = "" →
  TokenInfo.GetRefresh info ≠ "" →
  store w !! (BasicCName (TokenStore.tcfg ts), ObjectIDHex rt (oidCounter w)) = None →
  store w !! (AccessCName (TokenStore.tcfg ts), TokenInfo.GetAccess info) = None →
  store w !! (RefreshCName (TokenStore.tcfg ts), TokenInfo.GetRefresh info) = None →
  let w' := snd (TokenStore.Create rt ts info w) in
  fst (TokenStore.GetByAccess rt ts (TokenInfo.GetAccess info) w')
    = (Some (fst (json_Unmarshal rt jv TokenInfo.zero)), None) ∧
  fst (TokenStore.GetByRefresh rt ts (TokenInfo.GetRefresh info) w')
    = (Some (fst (json_Unmarshal rt jv TokenInfo.zero)), None).
Proof.
  intros Hperm Hd Hm Hcode Hr Hfb Hfa Hfr w'.
  destruct (Create_grant_stores rt ts info w jv Hperm Hm Hcode) as (_ & _ & Hin & _).
  { intros c d [(-> & ->) | [(-> & ->) | (-> & _ & ->)]]%(grantPayloads_inv _ _ _ _ Hd);
      assumption. }
  pose proof (Hin _ _ (grantPayloads_access ts info jv _ Hd)) as Ha.
  pose proof (Hin _ _ (grantPayloads_refresh ts info jv _ Hr)) as Hre.
  pose proof (Hin _ _ (grantPayloads_basic ts info jv _ Hd)) as Hb.
  cbn [docID basicData.ID tokenData.ID] in Ha, Hre, Hb. fold w' in Ha, Hre, Hb.
  rewrite GetByAccess_fst, GetByRefresh_fst. unfold indexedID.
  rewrite Ha, Hre, !BasicID_stored. cbn [decode_tokenData tokenData.BasicID].
  now rewrite getData_result, Hb, Data_stored.
Qed.

(** X11: [RemoveByCode] deletes the basic payload with that id and
    [RemoveByRefresh] the refresh row with that id, each nothing else: the
    rows that point at a removed payload stay, and so does the payload of
    a removed row.  Both return [nil], also when there was nothing to
    delete. *)
Theorem RemoveByCode_RemoveByRefresh_no_cascade ts token w :
  distinctCNames (TokenStore.tcfg ts) →
  let basic := BasicCName (TokenStore.tcfg ts) in
  let access := AccessCName (TokenStore.tcfg ts) in
  let refresh := RefreshCName (TokenStore.tcfg ts) in
  let wc := snd (TokenStore.RemoveByCode ts token w) in
  let wr := snd (TokenStore.RemoveByRefresh ts token w) in
  fst (TokenStore.RemoveByCode ts token w) = None ∧
  fst (TokenStore.RemoveByRefresh ts token w) = None ∧
  store wc = delete (basic, token) (store w) ∧
  (∀ id, store wc !! (access, id) = store w !! (access, id)) ∧
  (∀ id, store wc !! (refresh, id) = store w !! (refresh, id)) ∧
  store wr = delete (refresh, token) (store w) ∧
  (∀ id, store wr !! (access, id) = store w !! (access, id)) ∧
  (∀ id, store wr !! (basic, id) = store w !! (basic, id)).
Proof.
  intros (Hba & Hbr & Har) basic access refresh wc wr. subst wc wr.
  rewrite RemoveByCode_store, RemoveByRefresh_store.
  split; [reflexivity|]. split; [reflexivity|].
  split; [reflexivity|].
  split; [intros id; apply lookup_delete_ne; intros [= Heq _]; now apply Hba|].
  split; [intros id; apply lookup_delete_ne; intros [= Heq _]; now apply Hbr|].
  split; [reflexivity|].
  split; intros id; apply lookup_delete_ne; intros [= Heq _];
    [now apply Har | now apply Hbr].
Qed.

(** X12: removing one token of a grant leaves the other usable:
    [GetByRefresh] answers after [RemoveByAccess] as before it,
    [GetByAccess] after [RemoveByRefresh] as before it, and after both
    removals [GetByCode] still answers as before: the payload stays in
    the database. *)
Theorem removing_a_token_keeps_the_other_lookups rt ts access refresh id w :
  distinctCNames (TokenStore.tcfg ts) →
  fst (TokenStore.GetByRefresh rt ts refresh (snd (TokenStore.RemoveByAccess ts access w)))
    = fst (TokenStore.GetByRefresh rt ts refresh w) ∧
  fst (TokenStore.GetByAccess rt ts access (snd (TokenStore.RemoveByRefresh ts refresh w)))
    = fst (TokenStore.GetByAccess rt ts access w) ∧
  fst (TokenStore.GetByCode rt ts id
         (snd (TokenStore.RemoveByRefresh ts refresh
                 (snd (TokenStore.RemoveByAccess ts access w)))))
    = fst (TokenStore.GetByCode rt ts id w).
Proof.
  intros (Hba & Hbr & Har).
  assert (∀ i, (AccessCName (TokenStore.tcfg ts), access)
               ≠ (BasicCName (TokenStore.tcfg ts), i)) as Kab
    by (intros i [= Heq _]; now apply Hba).
  assert (∀ i, (RefreshCName (TokenStore.tcfg ts), refresh)
               ≠ (BasicCName (TokenStore.tcfg ts), i)) as Krb
    by (intros i [= Heq _]; now apply Hbr).
  split; [|split].
  - rewrite !GetByRefresh_fst, RemoveByAccess_store. unfold indexedID.
    rewrite lookup_delete_ne by (intros [= Heq _]; now apply Har).
    f_equal. f_equal. f_equal. apply getData_fst_ext.
    rewrite RemoveByAccess_store. now apply lookup_delete_ne.
  - rewrite !GetByAccess_fst, RemoveByRefresh_store. unfold indexedID.
    rewrite lookup_delete_ne by (intros [= Heq _]; now apply Har).
    f_equal. f_equal. f_equal. apply getData_fst_ext.
    rewrite RemoveByRefresh_store. now apply lookup_delete_ne.
  - unfold TokenStore.GetByCode. apply getData_fst_ext.
    rewrite RemoveByRefresh_store, RemoveByAccess_store.
    rewrite !lookup_delete_ne; done.
Qed.

(** X13: storing a code that was free and removing it again gives back
    the database there was, whether or not the token information could be
    serialized. *)
Theorem Create_code_then_RemoveByCode_restores rt ts info w :
  TokenInfo.GetCode info ≠ "" →
  store w !! (BasicCName (TokenStore.tcfg ts), TokenInfo.GetCode info) = None →
  store (snd (TokenStore.RemoveByCode ts (TokenInfo.GetCode info)
                (snd (TokenStore.Create rt ts info w)))) = store w.
Proof.
  intros Hcode Hfresh. rewrite RemoveByCode_store.
  destruct (json_Marshal rt info) as [jv [e|]] eqn:Hm.
  - rewrite (Create_marshal_fault _ _ _ _ _ _ Hm). now apply delete_id.
  - rewrite (Create_code_store _ _ _ _ _ Hm Hcode). cbv zeta.
    rewrite Hfresh, delete_insert_eq. now apply delete_id.
Qed.

(** X14: no getter looks at [ExpiredAt]: with another expiry in the index
    row or in the payload, [GetByAccess], [GetByRefresh] and [GetByCode]
    return what they return with the stored one. *)
Theorem getters_ignore_ExpiredAt rt ts a r b arow rrow p exp' w :
  distinctCNames (TokenStore.tcfg ts) →
  let akey := (AccessCName (TokenStore.tcfg ts), a) in
  let rkey := (RefreshCName (TokenStore.tcfg ts), r) in
  let bkey := (BasicCName (TokenStore.tcfg ts), b) in
  store w !! akey = Some (TokenDoc arow) →
  store w !! rkey = Some (TokenDoc rrow) →
  store w !! bkey = Some (BasicDoc p) →
  let arow' := TokenDoc (tokenData.mk (tokenData.ID arow) (tokenData.BasicID arow) exp') in
  let rrow' := TokenDoc (tokenData.mk (tokenData.ID rrow) (tokenData.BasicID rrow) exp') in
  let p' := BasicDoc (basicData.mk (basicData.ID p) (basicData.Data p) exp') in
  fst (TokenStore.GetByAccess rt ts a (driver.withStore (<[akey := arow']> (store w)) w))
    = fst (TokenStore.GetByAccess rt ts a w) ∧
  fst (TokenStore.GetByRefresh rt ts r (driver.withStore (<[rkey := rrow']> (store w)) w))
    = fst (TokenStore.GetByRefresh rt ts r w) ∧
  fst (TokenStore.GetByCode rt ts b (driver.withStore (<[bkey := p']> (store w)) w))
    = fst (TokenStore.GetByCode rt ts b w).
Proof.
  intros (Hba & Hbr & Har) akey rkey bkey Ha Hr Hb arow' rrow' p'.
  split; [|split].
  - rewrite !GetByAccess_fst. unfold indexedID. cbn [store driver.withStore].
    fold akey. rewrite lookup_insert_eq, Ha. cbn [decode_tokenData tokenData.BasicID].
    f_equal. f_equal. f_equal. apply getData_fst_ext. cbn [store driver.withStore].
    apply lookup_insert_ne. intros [= Heq _]. now apply Hba.
  - rewrite !GetByRefresh_fst. unfold indexedID. cbn [store driver.withStore].
    fold rkey. rewrite lookup_insert_eq, Hr. cbn [decode_tokenData tokenData.BasicID].
    f_equal. f_equal. f_equal. apply getData_fst_ext. cbn [store driver.withStore].
    apply lookup_insert_ne. intros [= Heq _]. now apply Hbr.
  - unfold TokenStore.GetByCode. rewrite !getData_result. cbn [store driver.withStore].
    fold bkey. now rewrite lookup_insert_eq, Hb.
Qed.

(** X15: the three getters leave the database as it is, whether they find
    something or not. *)
Theorem getters_leave_the_database rt ts token w :
  store (snd (TokenStore.GetByCode rt ts token w)) = store w ∧
  store (snd (TokenStore.GetByAccess rt ts token w)) = store w ∧
  store (snd (TokenStore.GetByRefresh rt ts token w)) = store w.
Proof.
  split; [apply getData_store|]. split; apply GetByIndex_store.
Qed.

(** X19: a grant that can be read stays readable: when the rows of an
    access and of a refresh token and the payloads they name are stored,
    no later [Create], of whatever token information, changes what
    [GetByAccess] and [GetByRefresh] return for them. *)
Theorem Create_keeps_stored_grants_readable rt ts info a r arow rrow pa pr w :
  store w !! (AccessCName (TokenStore.tcfg ts), a) = Some arow →
  store w !! (BasicCName (TokenStore.tcfg ts),
              tokenData.BasicID (decode_tokenData arow)) = Some pa →
  store w !! (RefreshCName (TokenStore.tcfg ts), r) = Some rrow →
  store w !! (BasicCName (TokenStore.tcfg ts),
              tokenData.BasicID (decode_tokenData rrow)) = Some pr →
  let w' := snd (TokenStore.Create rt ts info w) in
  fst (TokenStore.GetByAccess rt ts a w') = fst (TokenStore.GetByAccess rt ts a w) ∧
  fst (TokenStore.GetByRefresh rt ts r w') = fst (TokenStore.GetByRefresh rt ts r w).
Proof.
  intros Ha Hpa Hr Hpr w'.
  assert (∀ k v, store w !! k = Some v → store w' !! k = Some v) as Hkeep.
  { intros k v Hk. subst w'.
    destruct (json_Marshal rt info) as [jv [e|]] eqn:Hm.
    { now rewrite (Create_marshal_fault _ _ _ _ _ _ Hm). }
    destruct (decide (TokenInfo.GetCode info = "")) as [Hcode|Hcode].
    - rewrite (Create_grant_run _ _ _ _ _ Hm Hcode).
      pose proof (insertEach_mono ts (grantEntries rt ts info jv w)
                    (afterRange (begun (afterOID w))) k v Hk) as Hmono.
      now destruct (TokenStore.insertEach _ _ _ _).
    - now apply Create_code_keeps. }
  split.
  - rewrite !GetByAccess_fst. unfold indexedID. rewrite (Hkeep _ _ Ha), Ha.
    f_equal. f_equal. f_equal. apply getData_fst_ext. now rewrite (Hkeep _ _ Hpa).
  - rewrite !GetByRefresh_fst. unfold indexedID. rewrite (Hkeep _ _ Hr), Hr.
    f_equal. f_equal. f_equal. apply getData_fst_ext. now rewrite (Hkeep _ _ Hpr).
Qed.

(* ===================================================================== *)
(** ** Further properties: expiry, separation, transactions *)
(* ===================================================================== *)

(** X16: when the two expiry times of a grant are shown in one zone and
    fall into one minute, the comparison of line 178 is the comparison of
    the times in seconds: the access expiry stored is the earlier of the
    two, at second granularity. *)
Theorem expiries_clamp_within_one_minute info :
  TokenInfo.GetRefresh info ≠ "" →
  let aexp := time.Add (TokenInfo.GetAccessCreateAt info) (TokenInfo.GetAccessExpiresIn info) in
  let rexp := time.Add (TokenInfo.GetRefreshCreateAt info) (TokenInfo.GetRefreshExpiresIn info) in
  time.zoneOffset aexp = time.zoneOffset rexp →
  minuteOf aexp = minuteOf rexp →
  TokenStore.expiries info
    = (if (time.Unix rexp <? time.Unix aexp)%Z then rexp else aexp, rexp) ∧
  (time.Unix (fst (TokenStore.expiries info)) <= time.Unix rexp)%Z.
Proof.
  intros Hr aexp rexp Hzone Hmin.
  rewrite (expiries_refresh info Hr). cbv zeta. fold aexp rexp.
  unfold minuteOf in Hmin. unfold time.Time_Second. rewrite <- Hzone in *.
  pose proof (Z.div_mod (time.Unix aexp + time.zoneOffset aexp) 60 ltac:(lia)) as Ha.
  pose proof (Z.div_mod (time.Unix rexp + time.zoneOffset aexp) 60 ltac:(lia)) as Hre.
  rewrite Hmin in Ha.
  destruct (Z.ltb_spec ((time.Unix rexp + time.zoneOffset aexp) mod 60)
                       ((time.Unix aexp + time.zoneOffset aexp) mod 60));
    destruct (Z.ltb_spec (time.Unix rexp) (time.Unix aexp));
    cbn [fst]; split; try reflexivity; lia.
Qed.

(** X17: the two stores keep to their collections.  [Set] and
    [RemoveByID] touch no document outside the clients collection; when
    that collection is none of the token collections, [Create] and the
    three removals of the token store touch no client. *)
Theorem stores_keep_to_their_collections rt cs ts cinfo cid tinfo token w :
  rangeOrder_ok rt →
  clientsApart (ClientStore.ccfg cs) (TokenStore.tcfg ts) →
  let clients := ClientsCName (ClientStore.ccfg cs) in
  (∀ c id, c ≠ clients →
     store (snd (ClientStore.Set_ cs cinfo w)) !! (c, id) = store w !! (c, id)) ∧
  (∀ c id, c ≠ clients →
     store (snd (ClientStore.RemoveByID cs cid w)) !! (c, id) = store w !! (c, id)) ∧
  (∀ id, store (snd (TokenStore.Create rt ts tinfo w)) !! (clients, id)
         = store w !! (clients, id)) ∧
  (∀ id, store (snd (TokenStore.RemoveByCode ts token w)) !! (clients, id)
         = store w !! (clients, id)) ∧
  (∀ id, store (snd (TokenStore.RemoveByAccess ts token w)) !! (clients, id)
         = store w !! (clients, id)) ∧
  (∀ id, store (snd (TokenStore.RemoveByRefresh ts token w)) !! (clients, id)
         = store w !! (clients, id)).
Proof.
  intros Hperm (Hcb & Hca & Hcr) clients.
  split; [|split; [|split; [|split; [|split]]]].
  - intros c id Hne. rewrite Set_store. cbv zeta.
    destruct (store w !! _); [done|].
    apply lookup_insert_ne. intros [= Heq _]. now apply Hne.
  - intros c id Hne. rewrite RemoveByID_store.
    apply lookup_delete_ne. intros [= Heq _]. now apply Hne.
  - intros id.
    destruct (json_Marshal rt tinfo) as [jv [e|]] eqn:Hm.
    { now rewrite (Create_marshal_fault _ _ _ _ _ _ Hm). }
    destruct (decide (TokenInfo.GetCode tinfo = "")) as [Hcode|Hcode].
    + rewrite (Create_grant_run _ _ _ _ _ Hm Hcode).
      pose proof (insertEach_frame ts (grantEntries rt ts tinfo jv w)
                    (afterRange (begun (afterOID w))) (clients, id)) as Hframe.
      destruct (TokenStore.insertEach _ _ _ _) as [err w1].
      cbn [snd] in Hframe |- *. rewrite store_concluded. apply Hframe.
      intros c d Hin [= -> _].
      apply (grantEntries_elem _ _ _ _ _ _ _ Hperm), grantPayloads_names in Hin
        as [Heq | [Heq | Heq]]; [now apply Hcb | now apply Hca | now apply Hcr].
    + apply Create_code_frame; [done|]. intros [= Heq _]. now apply Hcb.
  - intros id. rewrite RemoveByCode_store.
    apply lookup_delete_ne. intros [= Heq _]. now apply Hcb.
  - intros id. rewrite RemoveByAccess_store.
    apply lookup_delete_ne. intros [= Heq _]. now apply Hca.
  - intros id. rewrite RemoveByRefresh_store.
    apply lookup_delete_ne. intros [= Heq _]. now apply Hcr.
Qed.

Lemma outside_ret {A} (a : A) : outsideM (ret a).
Proof. intros w. exists []. split; [now rewrite app_nil_r | reflexivity]. Qed.

Lemma outside_bind {A B} (m : M A) (k : A → M B) :
  outsideM m → (∀ a, outsideM (k a)) → outsideM (bind m k).
Proof.
  intros Hm Hk w. unfold bind.
  specialize (Hm w). destruct (m w) as [a w1]. cbn in Hm.
  destruct Hm as (evs1 & Ht1 & Ha1). destruct (Hk a w1) as (evs2 & Ht2 & Ha2).
  exists (evs1 ++ evs2). split.
  - now rewrite Ht2, Ht1, app_assoc.
  - now rewrite forallb_app, Ha1, Ha2.
Qed.

Lemma outside_InsertOne c d : outsideM (driver.InsertOne CtxBackground c d).
Proof.
  intros w. rewrite InsertOne_bg.
  destruct (store w !! (c, docID d)); eexists [_]; split; reflexivity.
Qed.

Lemma outside_DeleteOne c id : outsideM (driver.DeleteOne CtxBackground c id).
Proof. intros w. rewrite DeleteOne_bg. eexists [_]. split; reflexivity. Qed.

Lemma outside_FindOne c id : outsideM (driver.FindOne CtxBackground c id).
Proof. intros w. rewrite FindOne_bg. eexists [_]. split; reflexivity. Qed.

Lemma outside_rangeMap rt m : outsideM (rangeMap rt m).
Proof. intros w. exists []. split; [cbn; now rewrite app_nil_r | reflexivity]. Qed.

Lemma outside_NewObjectIDHex rt : outsideM (NewObjectIDHex rt).
Proof. intros w. exists []. split; [cbn; now rewrite app_nil_r | reflexivity]. Qed.

Lemma outside_insertEach ts l : outsideM (TokenStore.insertEach ts CtxBackground l).
Proof. intros w. apply insertEach_outside. Qed.

(** A wrapper adds the two brackets of its transaction around what its
    callback did. *)
Lemma outside_wrapped {A} (fn : M (A * error)) w :
  outsideM fn →
  ranOutsideTxn w
    (snd (let '(r, w1) := fn (begun w) in ((fst r, @None Err), concluded (snd r) w1))).
Proof.
  intros Hfn. destruct (Hfn (begun w)) as (evs & Ht & Ha).
  destruct (fn (begun w)) as [r w1]. cbn [snd] in Ht |- *.
  exists (EvStartTransaction :: evs ++
          [match snd r with Some _ => EvAbortTransaction | None => EvCommitTransaction end]).
  split.
  - rewrite trace_concluded, Ht. cbn. now rewrite <- !app_assoc.
  - cbn. rewrite forallb_app, Ha. now destruct (snd r).
Qed.

Lemma outside_ClientStore_colHandler {A} cs name (fn : Context → string → M (A * error)) :
  keepsSession (fn CtxBackground name) → outsideM (fn CtxBackground name) →
  outsideM (ClientStore.colHandler cs name fn).
Proof.
  intros Hs Ho w. rewrite ClientStore_colHandler_run by done. now apply outside_wrapped.
Qed.

Lemma outside_TokenStore_colHandler {A} ts name (fn : Context → string → M (A * error)) :
  keepsSession (fn CtxBackground name) → outsideM (fn CtxBackground name) →
  outsideM (TokenStore.colHandler ts name fn).
Proof.
  intros Hs Ho w. rewrite TokenStore_colHandler_run by done. now apply outside_wrapped.
Qed.

Lemma outside_TokenStore_dbHandler {A} ts (fn : Context → M (A * error)) :
  keepsSession (fn CtxBackground) → outsideM (fn CtxBackground) →
  outsideM (TokenStore.dbHandler ts fn).
Proof.
  intros Hs Ho w. rewrite TokenStore_dbHandler_run by done. now apply outside_wrapped.
Qed.

Create HintDb outside.

#[local] Hint Resolve outside_ret outside_InsertOne outside_DeleteOne outside_FindOne
  outside_rangeMap outside_NewObjectIDHex outside_insertEach : outside.

Ltac outside :=
  repeat match goal with
  | |- outsideM (ClientStore.colHandler _ _ _) =>
      apply outside_ClientStore_colHandler; [solve [keeps]|]
  | |- outsideM (TokenStore.colHandler _ _ _) =>
      apply outside_TokenStore_colHandler; [solve [keeps]|]
  | |- outsideM (TokenStore.dbHandler _ _) =>
      apply outside_TokenStore_dbHandler; [solve [keeps]|]
  | |- outsideM (bind _ _) => apply outside_bind; [|intros ?]
  | |- outsideM (match ?x with _ => _ end) => destruct x
  | |- outsideM _ => solve [auto with outside]
  end.

(** X18: no operation of either store ever runs a database operation
    under the transaction its wrapper starts: every driver call it makes
    is a transaction bracket or an operation outside the transaction. *)
Theorem no_operation_runs_under_its_transaction rt cs ts cinfo tinfo id w :
  ranOutsideTxn w (snd (ClientStore.Set_ cs cinfo w)) ∧
  ranOutsideTxn w (snd (ClientStore.GetByID cs id w)) ∧
  ranOutsideTxn w (snd (ClientStore.RemoveByID cs id w)) ∧
  ranOutsideTxn w (snd (TokenStore.Create rt ts tinfo w)) ∧
  ranOutsideTxn w (snd (TokenStore.RemoveByCode ts id w)) ∧
  ranOutsideTxn w (snd (TokenStore.RemoveByAccess ts id w)) ∧
  ranOutsideTxn w (snd (TokenStore.RemoveByRefresh ts id w)) ∧
  ranOutsideTxn w (snd (TokenStore.GetByCode rt ts id w)) ∧
  ranOutsideTxn w (snd (TokenStore.GetByAccess rt ts id w)) ∧
  ranOutsideTxn w (snd (TokenStore.GetByRefresh rt ts id w)).
Proof.
  repeat split.
  - revert w. change (outsideM (ClientStore.Set_ cs cinfo)).
    unfold ClientStore.Set_. outside.
  - revert w. change (outsideM (ClientStore.GetByID cs id)).
    unfold ClientStore.GetByID. outside.
  - revert w. change (outsideM (ClientStore.RemoveByID cs id)).
    unfold ClientStore.RemoveByID. outside.
  - revert w. change (outsideM (TokenStore.Create rt ts tinfo)).
    unfold TokenStore.Create. outside.
  - revert w. change (outsideM (TokenStore.RemoveByCode ts id)).
    unfold TokenStore.RemoveByCode. outside.
  - revert w. change (outsideM (TokenStore.RemoveByAccess ts id)).
    unfold TokenStore.RemoveByAccess. outside.
  - revert w. change (outsideM (TokenStore.RemoveByRefresh ts id)).
    unfold TokenStore.RemoveByRefresh. outside.
  - revert w. change (outsideM (TokenStore.GetByCode rt ts id)).
    unfold TokenStore.GetByCode, TokenStore.getData. outside.
  - revert w. change (outsideM (TokenStore.GetByAccess rt ts id)).
    unfold TokenStore.GetByAccess, TokenStore.getBasicID, TokenStore.getData. outside.
  - revert w. change (outsideM (TokenStore.GetByRefresh rt ts id)).
    unfold TokenStore.GetByRefresh, TokenStore.getBasicID, TokenStore.getData. outside.
Qed.

(** X20: when the access and the refresh collection have one name, a grant
    with a refresh token loses its access row: the entry of the payload
    map for that collection is overwritten by the refresh row, so only
    the payload and the refresh row are inserted, and the access token
    has no row afterwards. *)
Theorem Create_shared_index_collection_drops_access_row rt ts info w jv :
  rangeOrder_ok rt →
  AccessCName (TokenStore.tcfg ts) = RefreshCName (TokenStore.tcfg ts) →
  BasicCName (TokenStore.tcfg ts) ≠ RefreshCName (TokenStore.tcfg ts) →
  json_Marshal rt info = (jv, None) →
  TokenInfo.GetCode info = "" →
  TokenInfo.GetRefresh info ≠ "" →
  TokenInfo.GetAccess info ≠ TokenInfo.GetRefresh info →
  let id := ObjectIDHex rt (oidCounter w) in
  let rexp := snd (TokenStore.expiries info) in
  let basicKey := (BasicCName (TokenStore.tcfg ts), id) in
  let accessKey := (AccessCName (TokenStore.tcfg ts), TokenInfo.GetAccess info) in
  let refreshKey := (RefreshCName (TokenStore.tcfg ts), TokenInfo.GetRefresh info) in
  store w !! basicKey = None →
  store w !! accessKey = None →
  store w !! refreshKey = None →
  let w' := snd (TokenStore.Create rt ts info w) in
  store w' !! accessKey = None ∧
  store w' !! refreshKey
    = Some (TokenDoc (tokenData.mk (TokenInfo.GetRefresh info) id (bson.storedTime rexp))) ∧
  store w' !! basicKey = Some (BasicDoc (basicData.mk id jv (bson.storedTime rexp))).
Proof.
  intros Hperm Har Hbr Hm Hcode Hr Htok id rexp basicKey accessKey refreshKey
    Hfb Hfa Hfr w'.
  assert (TokenStore.grantPayloads ts info jv id =
          <[RefreshCName (TokenStore.tcfg ts) :=
              TokenDoc (tokenData.mk (TokenInfo.GetRefresh info) id rexp)]>
            (<[BasicCName (TokenStore.tcfg ts) := BasicDoc (basicData.mk id jv rexp)]> ∅))
    as Hpay.
  { unfold TokenStore.grantPayloads.
    destruct (decide (TokenInfo.GetRefresh info ≠ "")); [|contradiction].
    rewrite Har. now rewrite insert_insert_eq. }
  pose proof (Create_grant_stores_exactly rt ts info w jv Hperm Hm Hcode) as Hex.
  cbv zeta in Hex. fold id in Hex.
  assert (∀ c d, TokenStore.grantPayloads ts info jv id !! c = Some d →
                 (c, docID d) = refreshKey ∨ (c, docID d) = basicKey) as Hkeys.
  { intros c d. rewrite Hpay, !lookup_insert_Some, lookup_empty.
    intros [[<- <-] | [_ [[<- <-] | [_ [=]]]]]; [now left | now right]. }
  assert (∀ c d, TokenStore.grantPayloads ts info jv id !! c = Some d →
                 store w !! (c, docID d) = None) as Hfresh
    by (intros c d [-> | ->]%Hkeys; assumption).
  specialize (Hex Hfresh). fold w' in Hex. split; [|split].
  - destruct (store w' !! accessKey) as [v|] eqn:Hv; [|reflexivity].
    apply Hex in Hv as [Hold | (c & d & [Heq | Heq]%Hkeys & Hk & _)].
    + congruence.
    + rewrite Heq in Hk. injection Hk as _ Hk. now destruct (Htok Hk).
    + rewrite Heq in Hk. injection Hk as Hk _. rewrite Har in Hk.
      now destruct (Hbr (eq_sym Hk)).
  - apply Hex. right. eexists _, _.
    split; [rewrite Hpay; apply lookup_insert_eq | done].
  - apply Hex. right. eexists _, _.
    split; [rewrite Hpay, lookup_insert_ne by done; apply lookup_insert_eq | done].
Qed.

(** X21: as long as no ObjectID is the empty string, no operation of the
    token store ever puts a payload under the empty id; so in every world
    they lead to, [GetByAccess] and [GetByRefresh] of a token that has no
    row return the zero token (and no fault). *)
Theorem no_payload_under_the_empty_id rt ts w :
  rangeOrder_ok rt →
  distinctCNames (TokenStore.tcfg ts) →
  (∀ n, ObjectIDHex rt n ≠ "") →
  tokenReachable rt ts w →
  store w !! (BasicCName (TokenStore.tcfg ts), "") = None ∧
  (∀ token, store w !! (AccessCName (TokenStore.tcfg ts), token) = None →
            fst (TokenStore.GetByAccess rt ts token w) = (Some TokenInfo.zero, None)) ∧
  (∀ token, store w !! (RefreshCName (TokenStore.tcfg ts), token) = None →
            fst (TokenStore.GetByRefresh rt ts token w) = (Some TokenInfo.zero, None)).
Proof.
  intros Hperm Hd Hoid Hreach.
  assert (store w !! (BasicCName (TokenStore.tcfg ts), "") = None) as Hinv.
  { induction Hreach as [|w info _ IH|w code _ IH|w access _ IH|w refresh _ IH
                         |w code _ IH|w access _ IH|w refresh _ IH].
    - apply lookup_empty.
    - destruct (json_Marshal rt info) as [jv [e|]] eqn:Hm.
      { now rewrite (Create_marshal_fault _ _ _ _ _ _ Hm). }
      destruct (decide (TokenInfo.GetCode info = "")) as [Hcode|Hcode].
      + rewrite (Create_grant_run _ _ _ _ _ Hm Hcode).
        pose proof (insertEach_frame ts (grantEntries rt ts info jv w)
                      (afterRange (begun (afterOID w)))
                      (BasicCName (TokenStore.tcfg ts), "")) as Hframe.
        destruct (TokenStore.insertEach _ _ _ _) as [err w1].
        cbn [snd] in Hframe |- *. rewrite store_concluded, Hframe; [exact IH|].
        intros c d Hin Hk.
        apply (grantEntries_elem _ _ _ _ _ _ _ Hperm), (grantPayloads_inv _ _ _ _ Hd) in Hin
          as [(-> & ->) | [(-> & ->) | (-> & _ & ->)]];
          pose proof (f_equal fst Hk) as Hc; pose proof (f_equal snd Hk) as Hid;
          cbn in Hc, Hid; destruct Hd as (Hba & Hbr & _).
        * now apply (Hoid (oidCounter w)).
        * now apply Hba.
        * now apply Hbr.
      + rewrite Create_code_frame; [exact IH|done|]. intros [= Heq]. now apply Hcode.
    - rewrite RemoveByCode_store. apply lookup_delete_None. now right.
    - rewrite RemoveByAccess_store. apply lookup_delete_None. now right.
    - rewrite RemoveByRefresh_store. apply lookup_delete_None. now right.
    - unfold TokenStore.GetByCode. now rewrite getData_store.
    - unfold TokenStore.GetByAccess. now rewrite GetByIndex_store.
    - unfold TokenStore.GetByRefresh. now rewrite GetByIndex_store. }
  split; [exact Hinv|]. split.
  - intros token Hmiss. rewrite GetByAccess_fst. unfold indexedID.
    now rewrite Hmiss, getData_result, Hinv.
  - intros token Hmiss. rewrite GetByRefresh_fst. unfold indexedID.
    now rewrite Hmiss, getData_result, Hinv.
Qed.

(* ===================================================================== *)
(** ** The further properties at concrete inputs *)
(* ===================================================================== *)

Lemma Set_GetByID_round_trip_witness :
  store emptyWorld !! ("oauth2_clients", "alice") = None ∧
  let w' := snd (ClientStore.Set_ defaultClientStore alice emptyWorld) in
  fst (ClientStore.Set_ defaultClientStore alice emptyWorld) = None ∧
  fst (ClientStore.GetByID defaultClientStore "alice" w') = (Some alice, None) ∧
  (∀ id, id ≠ "alice" →
         fst (ClientStore.GetByID defaultClientStore id w')
         = fst (ClientStore.GetByID defaultClientStore id emptyWorld)).
Proof.
  split; [reflexivity|].
  exact (Set_GetByID_round_trip defaultClientStore alice emptyWorld eq_refl).
Defined.

Lemma Set_taken_id_changes_nothing_witness :
  let w := snd (ClientStore.Set_ defaultClientStore alice emptyWorld) in
  let other := ClientInfo.mk "alice" "another secret" "https://example.net" "u9" in
  store w !! ("oauth2_clients", "alice") = Some (ClientDoc (entityOf alice)) ∧
  let w' := snd (ClientStore.Set_ defaultClientStore other w) in
  fst (ClientStore.Set_ defaultClientStore other w) = None ∧
  store w' = store w ∧
  fst (ClientStore.GetByID defaultClientStore "alice" w') = (Some alice, None).
Proof.
  cbv zeta.
  assert (store (snd (ClientStore.Set_ defaultClientStore alice emptyWorld))
            !! ("oauth2_clients", "alice") = Some (ClientDoc (entityOf alice))) as Htaken
    by (vm_compute; reflexivity).
  split; [exact Htaken|].
  exact (Set_taken_id_changes_nothing defaultClientStore
           (ClientInfo.mk "alice" "another secret" "https://example.net" "u9")
           (snd (ClientStore.Set_ defaultClientStore alice emptyWorld))
           (ClientDoc (entityOf alice)) Htaken).
Defined.

Lemma Set_then_RemoveByID_restores_witness :
  store emptyWorld !! ("oauth2_clients", "alice") = None ∧
  store (snd (ClientStore.RemoveByID defaultClientStore "alice"
                (snd (ClientStore.Set_ defaultClientStore alice emptyWorld))))
  = store emptyWorld.
Proof.
  split; [reflexivity|].
  exact (Set_then_RemoveByID_restores defaultClientStore alice emptyWorld eq_refl).
Defined.

Lemma Create_keeps_every_document_witness :
  let row := TokenDoc (tokenData.mk "a" "oid0" (time.Add epoch (3600 * time.Second)%Z)) in
  store hourWorld !! ("oauth2_access", "a") = Some row ∧
  store (snd (TokenStore.Create sampleRuntime defaultTokenStore hourGrant hourWorld))
    !! ("oauth2_access", "a") = Some row.
Proof.
  cbv zeta.
  assert (store hourWorld !! ("oauth2_access", "a")
          = Some (TokenDoc (tokenData.mk "a" "oid0" (time.Add epoch (3600 * time.Second)%Z))))
    as Hrow by (vm_compute; reflexivity).
  split; [exact Hrow|].
  exact (Create_keeps_every_document sampleRuntime defaultTokenStore hourGrant hourWorld
           _ _ Hrow).
Defined.

Lemma Create_grant_adds_exactly_its_documents_witness :
  rangeOrder_ok sampleRuntime ∧
  distinctCNames (TokenStore.tcfg defaultTokenStore) ∧
  json_Marshal sampleRuntime hourGrant = ([Byte.x61], None) ∧
  TokenInfo.GetCode hourGrant = "" ∧
  store emptyWorld !! ("oauth2_basic", "oid0") = None ∧
  store emptyWorld !! ("oauth2_access", "a") = None ∧
  (TokenInfo.GetRefresh hourGrant ≠ "" →
   store emptyWorld !! ("oauth2_refresh", "r") = None) ∧
  store (snd (TokenStore.Create sampleRuntime defaultTokenStore hourGrant emptyWorld)) =
  <[("oauth2_refresh", "r") :=
      TokenDoc (tokenData.mk "r" "oid0" (time.Add epoch (7200 * time.Second)%Z))]>
    (<[("oauth2_access", "a") :=
         TokenDoc (tokenData.mk "a" "oid0" (time.Add epoch (3600 * time.Second)%Z))]>
       (<[("oauth2_basic", "oid0") :=
            BasicDoc (basicData.mk "oid0" [Byte.x61]
                        (time.Add epoch (7200 * time.Second)%Z))]> ∅)).
Proof.
  assert (rangeOrder_ok sampleRuntime) as Hperm by (intros n l; reflexivity).
  assert (distinctCNames (TokenStore.tcfg defaultTokenStore)) as Hd
    by (repeat split; discriminate).
  do 7 (split; [first [exact Hperm | exact Hd | reflexivity]|]).
  exact (Create_grant_adds_exactly_its_documents sampleRuntime defaultTokenStore
           hourGrant emptyWorld [Byte.x61] Hperm Hd eq_refl eq_refl eq_refl eq_refl
           (fun _ => eq_refl)).
Defined.

Lemma Create_code_then_GetByCode_witness :
  json_Marshal sampleRuntime codeGrant = ([Byte.x61], None) ∧
  TokenInfo.GetCode codeGrant ≠ "" ∧
  fst (TokenStore.GetByCode sampleRuntime defaultTokenStore "c0de"
         (snd (TokenStore.Create sampleRuntime defaultTokenStore codeGrant emptyWorld)))
  = (fst (json_Unmarshal sampleRuntime [Byte.x61] TokenInfo.zero), None).
Proof.
  assert (TokenInfo.GetCode codeGrant ≠ "") as Hcode by discriminate.
  split; [reflexivity|]. split; [exact Hcode|].
  exact (Create_code_then_GetByCode sampleRuntime defaultTokenStore codeGrant emptyWorld
           [Byte.x61] eq_refl Hcode).
Defined.

Lemma Create_grant_then_GetByAccess_GetByRefresh_witness :
  rangeOrder_ok sampleRuntime ∧
  distinctCNames (TokenStore.tcfg defaultTokenStore) ∧
  json_Marshal sampleRuntime hourGrant = ([Byte.x61], None) ∧
  TokenInfo.GetCode hourGrant = "" ∧
  TokenInfo.GetRefresh hourGrant ≠ "" ∧
  store emptyWorld !! ("oauth2_basic", "oid0") = None ∧
  store emptyWorld !! ("oauth2_access", "a") = None ∧
  store emptyWorld !! ("oauth2_refresh", "r") = None ∧
  fst (TokenStore.GetByAccess sampleRuntime defaultTokenStore "a" hourWorld)
    = (Some (fst (json_Unmarshal sampleRuntime [Byte.x61] TokenInfo.zero)), None) ∧
  fst (TokenStore.GetByRefresh sampleRuntime defaultTokenStore "r" hourWorld)
    = (Some (fst (json_Unmarshal sampleRuntime [Byte.x61] TokenInfo.zero)), None).
Proof.
  assert (rangeOrder_ok sampleRuntime) as Hperm by (intros n l; reflexivity).
  assert (distinctCNames (TokenStore.tcfg defaultTokenStore)) as Hd
    by (repeat split; discriminate).
  assert (TokenInfo.GetRefresh hourGrant ≠ "") as Hr by discriminate.
  do 8 (split; [first [exact Hperm | exact Hd | exact Hr | reflexivity]|]).
  exact (Create_grant_then_GetByAccess_GetByRefresh sampleRuntime defaultTokenStore
           hourGrant emptyWorld [Byte.x61] Hperm Hd eq_refl eq_refl Hr
           eq_refl eq_refl eq_refl).
Defined.

Lemma RemoveByCode_RemoveByRefresh_no_cascade_witness :
  distinctCNames (TokenStore.tcfg defaultTokenStore) ∧
  let wc := snd (TokenStore.RemoveByCode defaultTokenStore "oid0" hourWorld) in
  let wr := snd (TokenStore.RemoveByRefresh defaultTokenStore "oid0" hourWorld) in
  fst (TokenStore.RemoveByCode defaultTokenStore "oid0" hourWorld) = None ∧
  fst (TokenStore.RemoveByRefresh defaultTokenStore "oid0" hourWorld) = None ∧
  store wc = delete ("oauth2_basic", "oid0") (store hourWorld) ∧
  (∀ id, store wc !! ("oauth2_access", id) = store hourWorld !! ("oauth2_access", id)) ∧
  (∀ id, store wc !! ("oauth2_refresh", id) = store hourWorld !! ("oauth2_refresh", id)) ∧
  store wr = delete ("oauth2_refresh", "oid0") (store hourWorld) ∧
  (∀ id, store wr !! ("oauth2_access", id) = store hourWorld !! ("oauth2_access", id)) ∧
  (∀ id, store wr !! ("oauth2_basic", id) = store hourWorld !! ("oauth2_basic", id)).
Proof.
  assert (distinctCNames (TokenStore.tcfg defaultTokenStore)) as Hd
    by (repeat split; discriminate).
  split; [exact Hd|].
  exact (RemoveByCode_RemoveByRefresh_no_cascade defaultTokenStore "oid0" hourWorld Hd).
Defined.

Lemma removing_a_token_keeps_the_other_lookups_witness :
  distinctCNames (TokenStore.tcfg defaultTokenStore) ∧
  fst (TokenStore.GetByRefresh sampleRuntime defaultTokenStore "r"
         (snd (TokenStore.RemoveByAccess defaultTokenStore "a" hourWorld)))
    = fst (TokenStore.GetByRefresh sampleRuntime defaultTokenStore "r" hourWorld) ∧
  fst (TokenStore.GetByAccess sampleRuntime defaultTokenStore "a"
         (snd (TokenStore.RemoveByRefresh defaultTokenStore "r" hourWorld)))
    = fst (TokenStore.GetByAccess sampleRuntime defaultTokenStore "a" hourWorld) ∧
  fst (TokenStore.GetByCode sampleRuntime defaultTokenStore "oid0"
         (snd (TokenStore.RemoveByRefresh defaultTokenStore "r"
                 (snd (TokenStore.RemoveByAccess defaultTokenStore "a" hourWorld)))))
    = fst (TokenStore.GetByCode sampleRuntime defaultTokenStore "oid0" hourWorld).
Proof.
  assert (distinctCNames (TokenStore.tcfg defaultTokenStore)) as Hd
    by (repeat split; discriminate).
  split; [exact Hd|].
  exact (removing_a_token_keeps_the_other_lookups sampleRuntime defaultTokenStore
           "a" "r" "oid0" hourWorld Hd).
Defined.

Lemma Create_code_then_RemoveByCode_restores_witness :
  TokenInfo.GetCode codeGrant ≠ "" ∧
  store emptyWorld !! ("oauth2_basic", "c0de") = None ∧
  store (snd (TokenStore.RemoveByCode defaultTokenStore "c0de"
                (snd (TokenStore.Create sampleRuntime defaultTokenStore codeGrant
                        emptyWorld)))) = store emptyWorld.
Proof.
  assert (TokenInfo.GetCode codeGrant ≠ "") as Hcode by discriminate.
  split; [exact Hcode|]. split; [reflexivity|].
  exact (Create_code_then_RemoveByCode_restores sampleRuntime defaultTokenStore codeGrant
           emptyWorld Hcode eq_refl).
Defined.

Lemma getters_ignore_ExpiredAt_witness :
  let arow := tokenData.mk "a" "oid0" (time.Add epoch (3600 * time.Second)%Z) in
  let rrow := tokenData.mk "r" "oid0" (time.Add epoch (7200 * time.Second)%Z) in
  let p := basicData.mk "oid0" [Byte.x61] (time.Add epoch (7200 * time.Second)%Z) in
  distinctCNames (TokenStore.tcfg defaultTokenStore) ∧
  store hourWorld !! ("oauth2_access", "a") = Some (TokenDoc arow) ∧
  store hourWorld !! ("oauth2_refresh", "r") = Some (TokenDoc rrow) ∧
  store hourWorld !! ("oauth2_basic", "oid0") = Some (BasicDoc p) ∧
  fst (TokenStore.GetByAccess sampleRuntime defaultTokenStore "a"
         (driver.withStore
            (<[("oauth2_access", "a") := TokenDoc (tokenData.mk "a" "oid0" epoch)]>
               (store hourWorld)) hourWorld))
    = fst (TokenStore.GetByAccess sampleRuntime defaultTokenStore "a" hourWorld) ∧
  fst (TokenStore.GetByRefresh sampleRuntime defaultTokenStore "r"
         (driver.withStore
            (<[("oauth2_refresh", "r") := TokenDoc (tokenData.mk "r" "oid0" epoch)]>
               (store hourWorld)) hourWorld))
    = fst (TokenStore.GetByRefresh sampleRuntime defaultTokenStore "r" hourWorld) ∧
  fst (TokenStore.GetByCode sampleRuntime defaultTokenStore "oid0"
         (driver.withStore
            (<[("oauth2_basic", "oid0") := BasicDoc (basicData.mk "oid0" [Byte.x61] epoch)]>
               (store hourWorld)) hourWorld))
    = fst (TokenStore.GetByCode sampleRuntime defaultTokenStore "oid0" hourWorld).
Proof.
  cbv zeta.
  assert (distinctCNames (TokenStore.tcfg defaultTokenStore)) as Hd
    by (repeat split; discriminate).
  assert (store hourWorld !! ("oauth2_access", "a")
          = Some (TokenDoc (tokenData.mk "a" "oid0" (time.Add epoch (3600 * time.Second)%Z))))
    as Ha by (vm_compute; reflexivity).
  assert (store hourWorld !! ("oauth2_refresh", "r")
          = Some (TokenDoc (tokenData.mk "r" "oid0" (time.Add epoch (7200 * time.Second)%Z))))
    as Hr by (vm_compute; reflexivity).
  assert (store hourWorld !! ("oauth2_basic", "oid0")
          = Some (BasicDoc (basicData.mk "oid0" [Byte.x61]
                              (time.Add epoch (7200 * time.Second)%Z))))
    as Hb by (vm_compute; reflexivity).
  split; [exact Hd|]. split; [exact Ha|]. split; [exact Hr|]. split; [exact Hb|].
  exact (getters_ignore_ExpiredAt sampleRuntime defaultTokenStore "a" "r" "oid0"
           _ _ _ epoch hourWorld Hd Ha Hr Hb).
Defined.

Lemma expiries_clamp_within_one_minute_witness :
  let aexp := time.Add epoch (50 * time.Second)%Z in
  let rexp := time.Add epoch (20 * time.Second)%Z in
  TokenInfo.GetRefresh sameMinuteGrant ≠ "" ∧
  time.zoneOffset aexp = time.zoneOffset rexp ∧
  minuteOf aexp = minuteOf rexp ∧
  TokenStore.expiries sameMinuteGrant
    = (if (time.Unix rexp <? time.Unix aexp)%Z then rexp else aexp, rexp) ∧
  (time.Unix (fst (TokenStore.expiries sameMinuteGrant)) <= time.Unix rexp)%Z.
Proof.
  cbv zeta.
  assert (TokenInfo.GetRefresh sameMinuteGrant ≠ "") as Hr by discriminate.
  split; [exact Hr|]. split; [reflexivity|]. split; [reflexivity|].
  exact (expiries_clamp_within_one_minute sameMinuteGrant Hr eq_refl eq_refl).
Defined.

Lemma stores_keep_to_their_collections_witness :
  rangeOrder_ok sampleRuntime ∧
  clientsApart (ClientStore.ccfg defaultClientStore) (TokenStore.tcfg defaultTokenStore) ∧
  (∀ c id, c ≠ "oauth2_clients" →
     store (snd (ClientStore.Set_ defaultClientStore alice hourWorld)) !! (c, id)
     = store hourWorld !! (c, id)) ∧
  (∀ c id, c ≠ "oauth2_clients" →
     store (snd (ClientStore.RemoveByID defaultClientStore "alice" hourWorld)) !! (c, id)
     = store hourWorld !! (c, id)) ∧
  (∀ id, store (snd (TokenStore.Create sampleRuntime defaultTokenStore codeGrant hourWorld))
           !! ("oauth2_clients", id) = store hourWorld !! ("oauth2_clients", id)) ∧
  (∀ id, store (snd (TokenStore.RemoveByCode defaultTokenStore "a" hourWorld))
           !! ("oauth2_clients", id) = store hourWorld !! ("oauth2_clients", id)) ∧
  (∀ id, store (snd (TokenStore.RemoveByAccess defaultTokenStore "a" hourWorld))
           !! ("oauth2_clients", id) = store hourWorld !! ("oauth2_clients", id)) ∧
  (∀ id, store (snd (TokenStore.RemoveByRefresh defaultTokenStore "a" hourWorld))
           !! ("oauth2_clients", id) = store hourWorld !! ("oauth2_clients", id)).
Proof.
  assert (rangeOrder_ok sampleRuntime) as Hperm by (intros n l; reflexivity).
  assert (clientsApart (ClientStore.ccfg defaultClientStore)
            (TokenStore.tcfg defaultTokenStore)) as Hc
    by (repeat split; discriminate).
  split; [exact Hperm|]. split; [exact Hc|].
  exact (stores_keep_to_their_collections sampleRuntime defaultClientStore
           defaultTokenStore alice "alice" codeGrant "a" hourWorld Hperm Hc).
Defined.

Lemma Create_keeps_stored_grants_readable_witness :
  let arow := TokenDoc (tokenData.mk "a" "oid0" (time.Add epoch (3600 * time.Second)%Z)) in
  let rrow := TokenDoc (tokenData.mk "r" "oid0" (time.Add epoch (7200 * time.Second)%Z)) in
  let p := BasicDoc (basicData.mk "oid0" [Byte.x61]
                       (time.Add epoch (7200 * time.Second)%Z)) in
  let again := grant "a" "r" epoch time.Hour time.Hour in
  store hourWorld !! ("oauth2_access", "a") = Some arow ∧
  store hourWorld !! ("oauth2_basic", "oid0") = Some p ∧
  store hourWorld !! ("oauth2_refresh", "r") = Some rrow ∧
  let w' := snd (TokenStore.Create sampleRuntime defaultTokenStore again hourWorld) in
  fst (TokenStore.GetByAccess sampleRuntime defaultTokenStore "a" w')
    = fst (TokenStore.GetByAccess sampleRuntime defaultTokenStore "a" hourWorld) ∧
  fst (TokenStore.GetByRefresh sampleRuntime defaultTokenStore "r" w')
    = fst (TokenStore.GetByRefresh sampleRuntime defaultTokenStore "r" hourWorld).
Proof.
  cbv zeta.
  assert (store hourWorld !! ("oauth2_access", "a")
          = Some (TokenDoc (tokenData.mk "a" "oid0" (time.Add epoch (3600 * time.Second)%Z))))
    as Ha by (vm_compute; reflexivity).
  assert (store hourWorld !! ("oauth2_refresh", "r")
          = Some (TokenDoc (tokenData.mk "r" "oid0" (time.Add epoch (7200 * time.Second)%Z))))
    as Hr by (vm_compute; reflexivity).
  assert (store hourWorld !! ("oauth2_basic", "oid0")
          = Some (BasicDoc (basicData.mk "oid0" [Byte.x61]
                              (time.Add epoch (7200 * time.Second)%Z))))
    as Hb by (vm_compute; reflexivity).
  split; [exact Ha|]. split; [exact Hb|]. split; [exact Hr|].
  exact (Create_keeps_stored_grants_readable sampleRuntime defaultTokenStore
           (grant "a" "r" epoch time.Hour time.Hour) "a" "r" _ _ _ _ hourWorld
           Ha Hb Hr Hb).
Defined.

Lemma Create_shared_index_collection_drops_access_row_witness :
  rangeOrder_ok sampleRuntime ∧
  AccessCName (TokenStore.tcfg sharedIndexStore)
    = RefreshCName (TokenStore.tcfg sharedIndexStore) ∧
  BasicCName (TokenStore.tcfg sharedIndexStore)
    ≠ RefreshCName (TokenStore.tcfg sharedIndexStore) ∧
  json_Marshal sampleRuntime hourGrant = ([Byte.x61], None) ∧
  TokenInfo.GetCode hourGrant = "" ∧
  TokenInfo.GetRefresh hourGrant ≠ "" ∧
  TokenInfo.GetAccess hourGrant ≠ TokenInfo.GetRefresh hourGrant ∧
  store emptyWorld !! ("oauth2_basic", "oid0") = None ∧
  store emptyWorld !! ("oauth2_token", "a") = None ∧
  store emptyWorld !! ("oauth2_token", "r") = None ∧
  let w' := snd (TokenStore.Create sampleRuntime sharedIndexStore hourGrant emptyWorld) in
  store w' !! ("oauth2_token", "a") = None ∧
  store w' !! ("oauth2_token", "r")
    = Some (TokenDoc (tokenData.mk "r" "oid0" (time.Add epoch (7200 * time.Second)%Z))) ∧
  store w' !! ("oauth2_basic", "oid0")
    = Some (BasicDoc (basicData.mk "oid0" [Byte.x61]
                        (time.Add epoch (7200 * time.Second)%Z))).
Proof.
  assert (rangeOrder_ok sampleRuntime) as Hperm by (intros n l; reflexivity).
  assert (BasicCName (TokenStore.tcfg sharedIndexStore)
          ≠ RefreshCName (TokenStore.tcfg sharedIndexStore)) as Hbr by discriminate.
  assert (TokenInfo.GetRefresh hourGrant ≠ "") as Hr by discriminate.
  assert (TokenInfo.GetAccess hourGrant ≠ TokenInfo.GetRefresh hourGrant) as Htok
    by discriminate.
  do 10 (split; [first [exact Hperm | exact Hbr | exact Hr | exact Htok | reflexivity]|]).
  exact (Create_shared_index_collection_drops_access_row sampleRuntime sharedIndexStore
           hourGrant emptyWorld [Byte.x61] Hperm eq_refl Hbr eq_refl eq_refl Hr Htok
           eq_refl eq_refl eq_refl).
Defined.

Lemma no_payload_under_the_empty_id_witness :
  let w := snd (TokenStore.RemoveByAccess defaultTokenStore "a" hourWorld) in
  rangeOrder_ok sampleRuntime ∧
  distinctCNames (TokenStore.tcfg defaultTokenStore) ∧
  (∀ n, ObjectIDHex sampleRuntime n ≠ "") ∧
  tokenReachable sampleRuntime defaultTokenStore w ∧
  store w !! ("oauth2_basic", "") = None ∧
  (∀ token, store w !! ("oauth2_access", token) = None →
            fst (TokenStore.GetByAccess sampleRuntime defaultTokenStore token w)
            = (Some TokenInfo.zero, None)) ∧
  (∀ token, store w !! ("oauth2_refresh", token) = None →
            fst (TokenStore.GetByRefresh sampleRuntime defaultTokenStore token w)
            = (Some TokenInfo.zero, None)).
Proof.
  cbv zeta.
  assert (rangeOrder_ok sampleRuntime) as Hperm by (intros n l; reflexivity).
  assert (distinctCNames (TokenStore.tcfg defaultTokenStore)) as Hd
    by (repeat split; discriminate).
  assert (∀ n, ObjectIDHex sampleRuntime n ≠ "") as Hoid by (intros n; discriminate).
  assert (tokenReachable sampleRuntime defaultTokenStore
            (snd (TokenStore.RemoveByAccess defaultTokenStore "a" hourWorld))) as Hreach
    by (apply treach_RemoveByAccess, treach_Create, treach_empty).
  split; [exact Hperm|]. split; [exact Hd|]. split; [exact Hoid|]. split; [exact Hreach|].
  exact (no_payload_under_the_empty_id sampleRuntime defaultTokenStore _
           Hperm Hd Hoid Hreach).
Defined.
